(** * smtp_client: a shallow embedding of [smtp_client/smtp.py]

    The module drives one SMTP conversation over a socket.  Python 2 [str]
    values are byte strings and are modelled by [string] (a list of 8-bit
    [ascii]); exceptions are modelled by an error type [exn] and every
    function that can raise returns an [outcome].  The methods of the class
    [Smtp] mutate the object and talk to the network: they are functions in
    a state-and-error monad over the pair (object, world). *)

From Stdlib Require Import Bool Arith ZArith Lia List Ascii String.
From Stdlib Require Import DecimalString.
Import ListNotations.

Open Scope string_scope.

(** ** Python values and primitives used by the module *)

(** The arguments of [str(...)] and [format(...)] in the source are either
    integers (the constants of the [status] module) or strings. *)
Inductive pyval : Type :=
| PyInt (z : Z)
| PyStr (s : string).

(** [str(v)]: decimal rendering of an integer, identity on a string. *)
Definition str (v : pyval) : string :=
  match v with
  | PyInt z => NilZero.string_of_int (Z.to_int z)
  | PyStr s => s
  end.

Inductive exn : Type :=
| RuntimeError (message : string)
| socket_timeout
| IndexError.

Inductive outcome (A : Type) : Type :=
| Return (a : A)
| Raise (e : exn).
Arguments Return {A} a.
Arguments Raise {A} e.

Definition obind {A B : Type} (o : outcome A) (k : A -> outcome B) : outcome B :=
  match o with
  | Return a => k a
  | Raise e => Raise e
  end.

Notation "x <~ c ;; k" := (obind c (fun x => k))
  (at level 61, c at next level, right associativity).

(** [s[0]]: raises [IndexError] on the empty string. *)
Definition index_first (s : string) : outcome ascii :=
  match s with
  | EmptyString => Raise IndexError
  | String c _ => Return c
  end.

(** [s[-1]]: raises [IndexError] on the empty string. *)
Fixpoint index_last (s : string) : outcome ascii :=
  match s with
  | EmptyString => Raise IndexError
  | String c EmptyString => Return c
  | String _ rest => index_last rest
  end.

(** [s[0:n]]: a slice never raises; a short string is returned whole. *)
Fixpoint slice_to (n : nat) (s : string) : string :=
  match n, s with
  | S n', String c rest => String c (slice_to n' rest)
  | _, _ => EmptyString
  end.

(** Truth value of a string in a condition: non-empty. *)
Definition truthy (s : string) : bool :=
  match s with
  | EmptyString => false
  | String _ _ => true
  end.

(** ** Module constants *)

Definition SMTP_PORT : Z := 25.
Definition KILO : Z := 1024.
Definition CRLF : string := String "013" (String "010" EmptyString).
Definition NULL : string := String "000" EmptyString.

Module status.
(** Modelled from the spec: the module [status] imported by [smtp.py] is
    not among the sources; its constants are the expected reply codes of
    the command table (greeting and STARTTLS 220, EHLO/MAIL/RCPT/end of
    data 250, AUTH 235, DATA 354, QUIT 221). *)
Definition READY : pyval := PyInt 220.
Definition OK : pyval := PyInt 250.
Definition ACCEPTED : pyval := PyInt 235.
Definition START_DATA : pyval := PyInt 354.
Definition CLOSE_OK : pyval := PyInt 221.
End status.

(** ** Module-level helpers *)

Definition wrap_in_brackets (email_address : string) : outcome string :=
  first <~ index_first email_address ;;
  let email_address :=
    if Ascii.eqb first "<" then email_address else "<" ++ email_address in
  last <~ index_last email_address ;;
  let email_address :=
    if Ascii.eqb last ">" then email_address else email_address ++ ">" in
  Return email_address.

(** ["{com} {method} {param}{crlf}".format(...)] *)
Definition build_auth_line (method : string) (additional_param : string) : string :=
  let auth_command := "AUTH" in
  auth_command ++ " " ++ method ++ " " ++ additional_param ++ CRLF.

Definition compare_status (code : pyval) (response : string) : bool :=
  String.eqb (str code) (slice_to 3 response).

(** [RuntimeError("Unexpected status code: {} instead of {}".format(status_code, expected))] *)
Definition build_unexpected_status_error (status_code expected : pyval) : exn :=
  RuntimeError ("Unexpected status code: " ++ str status_code
                ++ " instead of " ++ str expected).

(** ** [base64.b64encode]

    The encoder of the Python library, after RFC 4648: every three bytes
    are regrouped, most significant bit first, into four 6-bit values, each
    written as one character of the alphabet; a last group of one or two
    bytes is padded with zero bits and the output with [=]. *)

Inductive sextet : Type :=
| Sextet (b5 b4 b3 b2 b1 b0 : bool).

Definition b64_alphabet : string :=
  "ABCDEFGHIJKLMNOPQRSTUVWXYZabcdefghijklmnopqrstuvwxyz0123456789+/".

Definition b64_pad : ascii := "=".

Definition bit (b : bool) (weight : nat) : nat := if b then weight else 0.

Definition sextet_value (x : sextet) : nat :=
  match x with
  | Sextet b5 b4 b3 b2 b1 b0 =>
      bit b5 32 + bit b4 16 + bit b3 8 + bit b2 4 + bit b1 2 + bit b0 1
  end.

Definition sextet_of_value (n : nat) : sextet :=
  Sextet (Nat.testbit n 5) (Nat.testbit n 4) (Nat.testbit n 3)
         (Nat.testbit n 2) (Nat.testbit n 1) (Nat.testbit n 0).

Definition b64_char (x : sextet) : ascii :=
  match String.get (sextet_value x) b64_alphabet with
  | Some c => c
  | None => b64_pad
  end.

Fixpoint find_char (c : ascii) (s : string) (i : nat) : option nat :=
  match s with
  | EmptyString => None
  | String d rest => if Ascii.eqb c d then Some i else find_char c rest (S i)
  end.

Definition b64_index (c : ascii) : option sextet :=
  option_map sextet_of_value (find_char c b64_alphabet 0).

(** The four characters of a full group of three bytes; [Ascii] lists the
    bits of a byte from the least significant one. *)
Definition encode3 (x y z : ascii) : string :=
  match x, y, z with
  | Ascii x0 x1 x2 x3 x4 x5 x6 x7,
    Ascii y0 y1 y2 y3 y4 y5 y6 y7,
    Ascii z0 z1 z2 z3 z4 z5 z6 z7 =>
      String (b64_char (Sextet x7 x6 x5 x4 x3 x2))
     (String (b64_char (Sextet x1 x0 y7 y6 y5 y4))
     (String (b64_char (Sextet y3 y2 y1 y0 z7 z6))
     (String (b64_char (Sextet z5 z4 z3 z2 z1 z0)) EmptyString)))
  end.

Definition encode2 (x y : ascii) : string :=
  match x, y with
  | Ascii x0 x1 x2 x3 x4 x5 x6 x7,
    Ascii y0 y1 y2 y3 y4 y5 y6 y7 =>
      String (b64_char (Sextet x7 x6 x5 x4 x3 x2))
     (String (b64_char (Sextet x1 x0 y7 y6 y5 y4))
     (String (b64_char (Sextet y3 y2 y1 y0 false false))
     (String b64_pad EmptyString)))
  end.

Definition encode1 (x : ascii) : string :=
  match x with
  | Ascii x0 x1 x2 x3 x4 x5 x6 x7 =>
      String (b64_char (Sextet x7 x6 x5 x4 x3 x2))
     (String (b64_char (Sextet x1 x0 false false false false))
     (String b64_pad (String b64_pad EmptyString)))
  end.

Fixpoint b64encode (s : string) : string :=
  match s with
  | EmptyString => EmptyString
  | String x EmptyString => encode1 x
  | String x (String y EmptyString) => encode2 x y
  | String x (String y (String z rest)) => encode3 x y z ++ b64encode rest
  end.

(** The inverse reading, used to state that a token can be decoded: groups
    of four characters, padding allowed in the last group only. *)
Definition decode3 (a b c d : sextet) : string :=
  match a, b, c, d with
  | Sextet a5 a4 a3 a2 a1 a0, Sextet b5 b4 b3 b2 b1 b0,
    Sextet c5 c4 c3 c2 c1 c0, Sextet d5 d4 d3 d2 d1 d0 =>
      String (Ascii b4 b5 a0 a1 a2 a3 a4 a5)
     (String (Ascii c2 c3 c4 c5 b0 b1 b2 b3)
     (String (Ascii d0 d1 d2 d3 d4 d5 c0 c1) EmptyString))
  end.

Definition decode2 (a b c : sextet) : string :=
  match a, b, c with
  | Sextet a5 a4 a3 a2 a1 a0, Sextet b5 b4 b3 b2 b1 b0,
    Sextet c5 c4 c3 c2 c1 c0 =>
      String (Ascii b4 b5 a0 a1 a2 a3 a4 a5)
     (String (Ascii c2 c3 c4 c5 b0 b1 b2 b3) EmptyString)
  end.

Definition decode1 (a b : sextet) : string :=
  match a, b with
  | Sextet a5 a4 a3 a2 a1 a0, Sextet b5 b4 b3 b2 b1 b0 =>
      String (Ascii b4 b5 a0 a1 a2 a3 a4 a5) EmptyString
  end.

Fixpoint b64decode (s : string) : option string :=
  match s with
  | EmptyString => Some EmptyString
  | String c1 (String c2 (String c3 (String c4 rest))) =>
      match b64_index c1, b64_index c2 with
      | Some a, Some b =>
          if Ascii.eqb c4 b64_pad then
            match rest with
            | EmptyString =>
                if Ascii.eqb c3 b64_pad then Some (decode1 a b)
                else match b64_index c3 with
                     | Some c => Some (decode2 a b c)
                     | None => None
                     end
            | String _ _ => None
            end
          else
            match b64_index c3, b64_index c4, b64decode rest with
            | Some c, Some d, Some tail => Some (decode3 a b c d ++ tail)
            | _, _, _ => None
            end
      | _, _ => None
      end
  | _ => None
  end.

(** [s.split(sep)] for a one-character separator. *)
Fixpoint split (sep : ascii) (s : string) : list string :=
  match s with
  | EmptyString => [EmptyString]
  | String c rest =>
      if Ascii.eqb c sep then EmptyString :: split sep rest
      else match split sep rest with
           | field :: fields => String c field :: fields
           | [] => [String c EmptyString]
           end
  end.

(** [c in s] *)
Fixpoint contains (c : ascii) (s : string) : bool :=
  match s with
  | EmptyString => false
  | String d rest => Ascii.eqb c d || contains c rest
  end.

(** ** Sockets and the network

    A socket object is identified by the descriptor it was created with;
    [ssl.SSLSocket(sock)] is a new object that wraps an existing one.  The
    world records, in order, every call made on a socket, and holds the
    results of the successive [recv] calls: [Some data] for bytes received,
    [None] for a [recv] that times out (an exhausted list times out too).
    Calls to [logging] only write to the log file and are left out. *)

Inductive socket : Type :=
| PlainSocket (fd : nat)
| SSLSocket (inner : socket).

Inductive event : Type :=
| ev_settimeout (s : socket) (seconds : Z)
| ev_connect (s : socket) (host : string) (port : Z)
| ev_send (s : socket) (data : string)
| ev_sendall (s : socket) (data : string)
| ev_recv (s : socket) (bufsize : Z)
| ev_ssl_wrap (s : socket)
| ev_close (s : socket).

Definition event_socket (e : event) : socket :=
  match e with
  | ev_settimeout s _ | ev_connect s _ _ | ev_send s _ | ev_sendall s _
  | ev_recv s _ | ev_ssl_wrap s | ev_close s => s
  end.

Record world : Type := mkWorld {
  next_fd : nat;
  inbox : list (option string);
  trace : list event
}.

Definition emit (e : event) (w : world) : world :=
  {| next_fd := next_fd w; inbox := inbox w; trace := trace w ++ [e] |}.

Fixpoint socket_eqb (a b : socket) : bool :=
  match a, b with
  | PlainSocket n, PlainSocket m => Nat.eqb n m
  | SSLSocket a', SSLSocket b' => socket_eqb a' b'
  | _, _ => false
  end.

(** A socket is closed once [close] was called on it. *)
Definition is_closed (s : socket) (w : world) : bool :=
  existsb (fun e => match e with
                    | ev_close s' => socket_eqb s s'
                    | _ => false
                    end) (trace w).

(** ** The class [Smtp] *)

Record Smtp : Type := mkSmtp {
  sock : socket;
  server_ip : string;
  port : Z
}.

Definition state : Type := (Smtp * world)%type.

(** Computations that read and write the object and the world and may
    raise; a raised exception keeps the state reached so far. *)
Definition M (A : Type) : Type := state -> outcome A * state.

Definition ret {A : Type} (a : A) : M A := fun st => (Return a, st).

Definition raise {A : Type} (e : exn) : M A := fun st => (Raise e, st).

Definition bind {A B : Type} (c : M A) (k : A -> M B) : M B :=
  fun st =>
    match c st with
    | (Return a, st') => k a st'
    | (Raise e, st') => (Raise e, st')
    end.

Notation "x <- c ;; k" := (bind c (fun x => k))
  (at level 61, c at next level, right associativity).
Notation "c ;;; k" := (bind c (fun _ => k))
  (at level 61, right associativity).

Definition lift {A : Type} (o : outcome A) : M A := fun st => (o, st).

(** [try: c  except socket.timeout as err: logging.error(...); raise] *)
Definition reraise_timeout {A : Type} (c : M A) : M A :=
  fun st =>
    match c st with
    | (Raise socket_timeout, st') => (Raise socket_timeout, st')
    | r => r
    end.

Definition self_sock : M socket := fun st => (Return (sock (fst st)), st).
Definition self_server_ip : M string := fun st => (Return (server_ip (fst st)), st).

Definition set_self_sock (s : socket) : M unit :=
  fun st =>
    (Return tt,
     ({| sock := s; server_ip := server_ip (fst st); port := port (fst st) |},
      snd st)).

Definition do_event (e : event) : M unit :=
  fun st => (Return tt, (fst st, emit e (snd st))).

Module sock_api.
Definition connect (s : socket) (host : string) (p : Z) : M unit :=
  do_event (ev_connect s host p).

Definition send (s : socket) (data : string) : M unit :=
  do_event (ev_send s data).

Definition sendall (s : socket) (data : string) : M unit :=
  do_event (ev_sendall s data).

Definition recv (s : socket) (bufsize : Z) : M string :=
  fun st =>
    let w := emit (ev_recv s bufsize) (snd st) in
    match inbox w with
    | Some data :: rest =>
        (Return data,
         (fst st, {| next_fd := next_fd w; inbox := rest; trace := trace w |}))
    | None :: rest =>
        (Raise socket_timeout,
         (fst st, {| next_fd := next_fd w; inbox := rest; trace := trace w |}))
    | [] => (Raise socket_timeout, (fst st, w))
    end.

Definition close (s : socket) : M unit :=
  do_event (ev_close s).

(** [ssl.SSLSocket(s)]: the handshake belongs to the [ssl] library; the
    call is recorded and the wrapping object returned. *)
Definition ssl_wrap (s : socket) : M socket :=
  do_event (ev_ssl_wrap s) ;;; ret (SSLSocket s).
End sock_api.

Module Smtp.

(** [Smtp(server_ip, port)]; [None] stands for the omitted argument. *)
Definition __init__ (server_ip : string) (port : option Z) (w : world)
  : state :=
  let port := match port with Some p => p | None => SMTP_PORT end in
  let s := PlainSocket (next_fd w) in
  let w := {| next_fd := S (next_fd w); inbox := inbox w; trace := trace w |} in
  ({| sock := s; server_ip := server_ip; port := port |},
   emit (ev_settimeout s 10) w).

Definition connect : M string :=
  ip <- self_server_ip ;;
  s <- self_sock ;;
  sock_api.connect s ip SMTP_PORT ;;;
  s <- self_sock ;;
  response <- reraise_timeout (sock_api.recv s KILO) ;;
  let code := slice_to 3 response in
  if negb (String.eqb code (str status.READY)) then
    raise (build_unexpected_status_error (PyStr code) status.READY)
  else ret response.

Definition ehlo : M string :=
  s <- self_sock ;;
  sock_api.send s ("EHLO" ++ CRLF) ;;;
  s <- self_sock ;;
  response <- reraise_timeout (sock_api.recv s KILO) ;;
  if negb (compare_status status.OK response) then
    raise (build_unexpected_status_error status.OK (PyStr (slice_to 3 response)))
  else ret response.

Definition starttls : M string :=
  let starttls_command := "STARTTLS" in
  s <- self_sock ;;
  sock_api.send s (starttls_command ++ CRLF) ;;;
  s <- self_sock ;;
  response <- reraise_timeout (sock_api.recv s KILO) ;;
  if negb (compare_status status.READY response) then
    raise (build_unexpected_status_error (PyStr (slice_to 3 response)) status.READY)
  else
    s <- self_sock ;;
    tls <- sock_api.ssl_wrap s ;;
    set_self_sock tls ;;;
    ret response.

Definition authenticate_plain (user pass_phrase : string) : M (bool * string) :=
  let plain := "PLAIN" in
  let packed_credentials := NULL ++ user ++ NULL ++ pass_phrase in
  let encoded_credentials := b64encode packed_credentials in
  let command_line := build_auth_line plain encoded_credentials in
  s <- self_sock ;;
  sock_api.send s command_line ;;;
  s <- self_sock ;;
  response <- reraise_timeout (sock_api.recv s KILO) ;;
  if negb (compare_status status.ACCEPTED response) then
    let runtime_err :=
      build_unexpected_status_error (PyStr (slice_to 3 response)) status.READY in
    ret (false, response)
  else ret (true, response).

(** ["{} {} {}{}".format(mail_command, from_param, body_param, CRLF)] *)
Definition mail (sender_address : string) (body : string) : M string :=
  let mail_command := "MAIL" in
  let from_param := "FROM:" in
  let body_param := "" in
  let body_param := if truthy body then "BODY=" ++ body else body_param in
  sender_address <- lift (wrap_in_brackets sender_address) ;;
  let from_param := from_param ++ sender_address in
  let command_line :=
    mail_command ++ " " ++ from_param ++ " " ++ body_param ++ CRLF in
  s <- self_sock ;;
  sock_api.send s command_line ;;;
  s <- self_sock ;;
  response <- reraise_timeout (sock_api.recv s KILO) ;;
  if negb (compare_status status.OK response) then
    raise (build_unexpected_status_error status.OK (PyStr (slice_to 3 response)))
  else ret response.

(** ["{} {}{}{}".format(rcpt_command, to_param, recipient, CRLF)] *)
Definition send_recipients (recipient : string) : M string :=
  let rcpt_command := "RCPT" in
  let to_param := "TO:" in
  recipient <- lift (wrap_in_brackets recipient) ;;
  let command_line := rcpt_command ++ " " ++ to_param ++ recipient ++ CRLF in
  s <- self_sock ;;
  sock_api.send s command_line ;;;
  s <- self_sock ;;
  response <- reraise_timeout (sock_api.recv s KILO) ;;
  if negb (compare_status status.OK response) then
    raise (build_unexpected_status_error status.OK (PyStr (slice_to 3 response)))
  else ret response.

Definition send_body (body : string) : M unit :=
  s <- self_sock ;;
  sock_api.sendall s body.

Definition initiate_data : M string :=
  let data_command := "DATA" ++ CRLF in (* the literal "DATA\r\n" *)
  s <- self_sock ;;
  sock_api.send s data_command ;;;
  s <- self_sock ;;
  response <- reraise_timeout (sock_api.recv s KILO) ;;
  if negb (compare_status status.START_DATA response) then
    raise (build_unexpected_status_error status.OK (PyStr (slice_to 3 response)))
  else ret response.

Definition end_data : M string :=
  let termination := CRLF ++ "." ++ CRLF in
  s <- self_sock ;;
  sock_api.send s termination ;;;
  s <- self_sock ;;
  response <- reraise_timeout (sock_api.recv s KILO) ;;
  if negb (compare_status status.OK response) then
    raise (build_unexpected_status_error status.OK (PyStr (slice_to 3 response)))
  else ret response.

Definition quit_terminate : M string :=
  let quit_command := "QUIT" ++ CRLF in
  s <- self_sock ;;
  sock_api.send s quit_command ;;;
  s <- self_sock ;;
  response <- reraise_timeout (sock_api.recv s KILO) ;;
  if negb (compare_status status.CLOSE_OK response) then
    raise (build_unexpected_status_error status.CLOSE_OK (PyStr (slice_to 3 response)))
  else
    s <- self_sock ;;
    sock_api.close s ;;;
    ret response.

End Smtp.

(** ** Runs of a session

    What a caller can do with an [Smtp] object, and the state reached after
    a call (whether it returned or raised). *)

Inductive call : Type :=
| call_connect
| call_ehlo
| call_starttls
| call_authenticate_plain (user pass_phrase : string)
| call_mail (sender_address body : string)
| call_send_recipients (recipient : string)
| call_send_body (body : string)
| call_initiate_data
| call_end_data
| call_quit_terminate.

Definition is_starttls (c : call) : bool :=
  match c with
  | call_starttls => true
  | _ => false
  end.

Definition perform (c : call) (st : state) : state :=
  match c with
  | call_connect => snd (Smtp.connect st)
  | call_ehlo => snd (Smtp.ehlo st)
  | call_starttls => snd (Smtp.starttls st)
  | call_authenticate_plain user pass_phrase =>
      snd (Smtp.authenticate_plain user pass_phrase st)
  | call_mail sender_address body => snd (Smtp.mail sender_address body st)
  | call_send_recipients recipient => snd (Smtp.send_recipients recipient st)
  | call_send_body body => snd (Smtp.send_body body st)
  | call_initiate_data => snd (Smtp.initiate_data st)
  | call_end_data => snd (Smtp.end_data st)
  | call_quit_terminate => snd (Smtp.quit_terminate st)
  end.

Definition perform_all (cs : list call) (st : state) : state :=
  fold_left (fun st c => perform c st) cs st.

(** The result of the next [recv], if it does not time out. *)
Definition next_reply (w : world) : option string :=
  match inbox w with
  | Some data :: _ => Some data
  | _ => None
  end.

(** The state after one command was sent on the session's socket and one
    [recv] was made on it. *)
Definition exchanged (command : string) (st : state) : state :=
  (fst st,
   {| next_fd := next_fd (snd st);
      inbox := tl (inbox (snd st));
      trace := trace (snd st) ++ [ev_send (sock (fst st)) command;
                                  ev_recv (sock (fst st)) KILO] |}).

(** The shape shared by the command methods: send, then one guarded [recv]. *)
Definition exchange {A : Type} (command : string) (k : string -> M A) : M A :=
  s <- self_sock ;;
  sock_api.send s command ;;;
  s <- self_sock ;;
  response <- reraise_timeout (sock_api.recv s KILO) ;;
  k response.

(** The state after the session's socket was wrapped and replaced. *)
Definition upgraded (st : state) : state :=
  ({| sock := SSLSocket (sock (fst st));
      server_ip := server_ip (fst st);
      port := port (fst st) |},
   emit (ev_ssl_wrap (sock (fst st))) (snd st)).

(** The state after [close] was called on the session's socket. *)
Definition closed (st : state) : state :=
  (fst st, emit (ev_close (sock (fst st))) (snd st)).

(** The state after [connect]: the socket connected, one [recv] made. *)
Definition connected (st : state) : state :=
  (fst st,
   {| next_fd := next_fd (snd st);
      inbox := tl (inbox (snd st));
      trace := trace (snd st)
               ++ [ev_connect (sock (fst st)) (server_ip (fst st)) SMTP_PORT;
                   ev_recv (sock (fst st)) KILO] |}).

(** The state after [sendall] on the session's socket. *)
Definition body_sent (body : string) (st : state) : state :=
  (fst st, emit (ev_sendall (sock (fst st)) body) (snd st)).

(** Events recorded between two worlds. *)
Definition new_events (w w' : world) : list event :=
  skipn (List.length (trace w)) (trace w').


(** A server stub that answers the successive [recv] calls with the given
    replies, and a fresh session talking to it. *)
Definition stub (replies : list string) : world :=
  {| next_fd := 3; inbox := map Some replies; trace := [] |}.

Definition session (replies : list string) : state :=
  Smtp.__init__ "10.0.0.1" None (stub replies).

(** The object with another value stored in its [port] field. *)
Definition with_port (p : Z) (self : Smtp) : Smtp :=
  {| sock := sock self; server_ip := server_ip self; port := p |}.

(** The states a call other than [starttls] can leave behind. *)
Inductive same_transport (st : state) : state -> Prop :=
| st_untouched : same_transport st st
| st_exchanged command : same_transport st (exchanged command st)
| st_closed command : same_transport st (closed (exchanged command st))
| st_connected : same_transport st (connected st)
| st_body_sent body : same_transport st (body_sent body st).

(** The event is a call on the socket [s]. *)
Definition on_socket (s : socket) (e : event) : Prop := event_socket e = s.

(** The exception an outcome carries, if any, and the one a call raises. *)
Definition exn_of {A : Type} (o : outcome A) : option exn :=
  match o with
  | Return _ => None
  | Raise e => Some e
  end.

Definition raised (c : call) (st : state) : option exn :=
  match c with
  | call_connect => exn_of (fst (Smtp.connect st))
  | call_ehlo => exn_of (fst (Smtp.ehlo st))
  | call_starttls => exn_of (fst (Smtp.starttls st))
  | call_authenticate_plain user pass_phrase =>
      exn_of (fst (Smtp.authenticate_plain user pass_phrase st))
  | call_mail sender_address body =>
      exn_of (fst (Smtp.mail sender_address body st))
  | call_send_recipients recipient =>
      exn_of (fst (Smtp.send_recipients recipient st))
  | call_send_body body => exn_of (fst (Smtp.send_body body st))
  | call_initiate_data => exn_of (fst (Smtp.initiate_data st))
  | call_end_data => exn_of (fst (Smtp.end_data st))
  | call_quit_terminate => exn_of (fst (Smtp.quit_terminate st))
  end.

Definition is_quit_terminate (c : call) : bool :=
  match c with
  | call_quit_terminate => true
  | _ => false
  end.

(** The calls that get as far as their [recv]: all but [send_body], and
    [mail] and [send_recipients] only with a non-empty address. *)
Definition reads_reply (c : call) : bool :=
  match c with
  | call_send_body _ => false
  | call_mail sender_address _ => truthy sender_address
  | call_send_recipients recipient => truthy recipient
  | _ => true
  end.

Definition is_close_event (e : event) : bool :=
  match e with
  | ev_close _ => true
  | _ => false
  end.

Definition is_ssl_wrap_event (e : event) : bool :=
  match e with
  | ev_ssl_wrap _ => true
  | _ => false
  end.

Definition is_send_event (e : event) : bool :=
  match e with
  | ev_send _ _ | ev_sendall _ _ => true
  | _ => false
  end.

(** Every [send] of the list is directly followed by a [recv] on the same
    socket. *)
Fixpoint answered (evs : list event) : bool :=
  match evs with
  | [] => true
  | ev_send s _ :: rest =>
      match rest with
      | ev_recv s' _ :: _ => socket_eqb s s'
      | _ => false
      end && answered rest
  | _ :: rest => answered rest
  end.

(** The events one call can add, on the socket [s] of the session. *)
Inductive call_events (s : socket) : list event -> Prop :=
| ce_nothing : call_events s []
| ce_sendall body : call_events s [ev_sendall s body]
| ce_connect host p : call_events s [ev_connect s host p; ev_recv s KILO]
| ce_exchange command : call_events s [ev_send s command; ev_recv s KILO]
| ce_upgrade command :
    call_events s [ev_send s command; ev_recv s KILO; ev_ssl_wrap s]
| ce_close command :
    call_events s [ev_send s command; ev_recv s KILO; ev_close s].

(** The bracket [wrap_in_brackets] puts in front of an address whose first
    character is [first], and the one it puts behind an address whose
    last character is [last]. *)
Definition opening_for (first : ascii) : string :=
  if Ascii.eqb first "<" then "" else "<".

Definition closing_for (last : ascii) : string :=
  if Ascii.eqb last ">" then "" else ">".

(** A character of the base64 alphabet, or the padding character. *)
Definition b64_symbol (c : ascii) : bool :=
  match b64_index c with
  | Some _ => true
  | None => Ascii.eqb c b64_pad
  end.

(** Every character of the string passes the test. *)
Fixpoint all_chars (test : ascii -> bool) (s : string) : bool :=
  match s with
  | EmptyString => true
  | String c rest => test c && all_chars test rest
  end.

(** The socket wrapped [k] times by [ssl.SSLSocket]. *)
Fixpoint wrapped_times (k : nat) (s : socket) : socket :=
  match k with
  | O => s
  | S k' => wrapped_times k' (SSLSocket s)
  end.

(** * Properties *)

(** ** Strings *)

Lemma index_last_total (c : ascii) (r : string) :
  exists l, index_last (String c r) = Return l.
Proof.
  revert c; induction r as [|d r IH]; intros c.
  - exists c; reflexivity.
  - destruct (IH d) as [l Hl]. exists l. exact Hl.
Qed.

Lemma index_last_snoc (s : string) (c : ascii) :
  index_last (s ++ String c EmptyString) = Return c.
Proof.
  induction s as [|d s IH]; [reflexivity|].
  cbn [append index_last]. rewrite IH.
  destruct s; reflexivity.
Qed.

Lemma index_last_cons (c d : ascii) (r : string) :
  index_last (String c (String d r)) = index_last (String d r).
Proof. reflexivity. Qed.

Lemma index_first_app (s t : string) (c : ascii) :
  index_first s = Return c -> index_first (s ++ t) = Return c.
Proof. destruct s; [discriminate|]. cbn. auto. Qed.

Lemma append_assoc (a b c : string) : (a ++ b) ++ c = a ++ (b ++ c).
Proof. induction a as [|x a IH]; cbn; [reflexivity | now rewrite IH]. Qed.

Lemma ascii_eqb_true (a b : ascii) : Ascii.eqb a b = true -> a = b.
Proof. apply Ascii.eqb_eq. Qed.

(** ** [wrap_in_brackets] *)

Lemma wrap_in_brackets_empty : wrap_in_brackets "" = Raise IndexError.
Proof. reflexivity. Qed.

Lemma wrap_in_brackets_bracketed (x : string) :
  index_first x = Return "<"%char -> index_last x = Return ">"%char ->
  wrap_in_brackets x = Return x.
Proof.
  intros Hf Hl. unfold wrap_in_brackets.
  rewrite Hf. cbn [obind]. rewrite Ascii.eqb_refl, Hl. cbn [obind].
  rewrite Ascii.eqb_refl. reflexivity.
Qed.

Lemma wrap_in_brackets_shape (x y : string) :
  wrap_in_brackets x = Return y ->
  index_first y = Return "<"%char /\ index_last y = Return ">"%char.
Proof.
  unfold wrap_in_brackets. destruct x as [|c r]; [discriminate|].
  cbn [index_first obind].
  set (x1 := if Ascii.eqb c "<" then String c r else "<" ++ String c r).
  assert (H1 : index_first x1 = Return "<"%char).
  { subst x1. destruct (Ascii.eqb c "<") eqn:E; [|reflexivity].
    apply ascii_eqb_true in E. subst c. reflexivity. }
  assert (H2 : exists l, index_last x1 = Return l).
  { subst x1. destruct (Ascii.eqb c "<"); apply index_last_total. }
  destruct H2 as [l Hl]. rewrite Hl. cbn [obind].
  destruct (Ascii.eqb l ">") eqn:E; intros [= <-].
  - apply ascii_eqb_true in E. subst l. auto.
  - split; [apply index_first_app; exact H1 | apply index_last_snoc].
Qed.

Lemma wrap_in_brackets_total (x : string) :
  x <> "" -> exists y, wrap_in_brackets x = Return y.
Proof.
  intros Hx. destruct x as [|c r]; [congruence|].
  unfold wrap_in_brackets. cbn [index_first obind].
  destruct (Ascii.eqb c "<").
  - destruct (index_last_total c r) as [l ->]. cbn [obind]. eauto.
  - destruct (index_last_total "<" (String c r)) as [l Hl].
    change ("<" ++ String c r) with (String "<" (String c r)).
    rewrite Hl. cbn [obind]. eauto.
Qed.

Lemma wrap_in_brackets_twice (x : string) :
  (y <~ wrap_in_brackets x ;; wrap_in_brackets y) = wrap_in_brackets x.
Proof.
  destruct (wrap_in_brackets x) as [y|e] eqn:E; [|reflexivity].
  cbn [obind]. apply wrap_in_brackets_shape in E as [Hf Hl].
  now apply wrap_in_brackets_bracketed.
Qed.

(** ** [compare_status] *)

Lemma slice_to_app (p t : string) :
  slice_to (String.length p) (p ++ t) = p.
Proof.
  induction p as [|c p IH]; cbn.
  - destruct t; reflexivity.
  - now rewrite IH.
Qed.

Lemma slice_to_length (n : nat) (s : string) :
  String.length (slice_to n s) <= String.length s.
Proof.
  revert s; induction n as [|n IH]; intros [|c s]; cbn; try lia.
  specialize (IH s). lia.
Qed.

Lemma compare_status_spec (code : pyval) (response : string) :
  compare_status code response = true <-> slice_to 3 response = str code.
Proof.
  unfold compare_status. rewrite String.eqb_eq. split; congruence.
Qed.

(** ** Base64 and the credential token *)

Lemma b64_index_char (x : sextet) : b64_index (b64_char x) = Some x.
Proof.
  destruct x as [[] [] [] [] [] []]; reflexivity.
Qed.

Lemma b64_char_not_pad (x : sextet) : Ascii.eqb (b64_char x) b64_pad = false.
Proof.
  destruct x as [[] [] [] [] [] []]; reflexivity.
Qed.

Lemma b64decode_group (x y z : ascii) (rest : string) :
  b64decode (encode3 x y z ++ rest) =
  match b64decode rest with
  | Some tail => Some (String x (String y (String z tail)))
  | None => None
  end.
Proof.
  destruct x as [x0 x1 x2 x3 x4 x5 x6 x7].
  destruct y as [y0 y1 y2 y3 y4 y5 y6 y7].
  destruct z as [z0 z1 z2 z3 z4 z5 z6 z7].
  cbn [encode3 append b64decode].
  rewrite !b64_index_char, b64_char_not_pad.
  destruct (b64decode rest); reflexivity.
Qed.

Lemma b64decode_last2 (x y : ascii) :
  b64decode (encode2 x y) = Some (String x (String y EmptyString)).
Proof.
  destruct x as [x0 x1 x2 x3 x4 x5 x6 x7].
  destruct y as [y0 y1 y2 y3 y4 y5 y6 y7].
  cbn [encode2 b64decode].
  rewrite !b64_index_char, Ascii.eqb_refl, b64_char_not_pad.
  reflexivity.
Qed.

Lemma b64decode_last1 (x : ascii) :
  b64decode (encode1 x) = Some (String x EmptyString).
Proof.
  destruct x as [x0 x1 x2 x3 x4 x5 x6 x7].
  cbn [encode1 b64decode].
  rewrite !b64_index_char, !Ascii.eqb_refl.
  reflexivity.
Qed.

Lemma b64decode_b64encode_bounded (n : nat) :
  forall s, String.length s <= n -> b64decode (b64encode s) = Some s.
Proof.
  induction n as [|n IH]; intros s Hlen.
  - destruct s; [reflexivity | cbn in Hlen; lia].
  - destruct s as [|x [|y [|z rest]]].
    + reflexivity.
    + apply b64decode_last1.
    + apply b64decode_last2.
    + cbn [b64encode]. rewrite b64decode_group, IH; [reflexivity|].
      cbn in Hlen. lia.
Qed.

Lemma b64decode_b64encode (s : string) : b64decode (b64encode s) = Some s.
Proof. apply (b64decode_b64encode_bounded (String.length s)). lia. Qed.

Lemma split_no_separator (sep : ascii) (s : string) :
  contains sep s = false -> split sep s = [s].
Proof.
  induction s as [|c s IH]; [reflexivity|].
  cbn [contains split]. rewrite orb_false_iff. intros [Hc Hs].
  rewrite Ascii.eqb_sym, Hc, (IH Hs). reflexivity.
Qed.

Lemma split_at_separator (sep : ascii) (s rest : string) :
  contains sep s = false ->
  split sep (s ++ String sep rest) = s :: split sep rest.
Proof.
  induction s as [|c s IH]; cbn [contains split append].
  - intros _. rewrite Ascii.eqb_refl. reflexivity.
  - rewrite orb_false_iff. intros [Hc Hs].
    rewrite Ascii.eqb_sym, Hc, (IH Hs). reflexivity.
Qed.

Lemma split_packed_credentials (user pass_phrase : string) :
  contains "000" user = false -> contains "000" pass_phrase = false ->
  split "000" (NULL ++ user ++ NULL ++ pass_phrase)
  = [EmptyString; user; pass_phrase].
Proof.
  intros Hu Hp. unfold NULL. cbn [append split].
  rewrite Ascii.eqb_refl.
  rewrite (split_at_separator _ _ _ Hu), (split_no_separator _ _ Hp).
  reflexivity.
Qed.

(** ** Running the methods *)

Lemma exchange_run {A : Type} (command : string) (k : string -> M A) (st : state) :
  exchange command k st =
  match next_reply (snd st) with
  | Some r => k r (exchanged command st)
  | None => (Raise socket_timeout, exchanged command st)
  end.
Proof.
  destruct st as [self [n ib tr]].
  unfold exchange, exchanged, next_reply, bind, self_sock, reraise_timeout,
    sock_api.send, sock_api.recv, do_event, emit.
  cbn [fst snd inbox trace next_fd].
  destruct ib as [|[r|] rest]; cbn [tl]; rewrite <- app_assoc; reflexivity.
Qed.

Lemma new_events_app (w w' : world) (evs : list event) :
  trace w' = (trace w ++ evs)%list -> new_events w w' = evs.
Proof.
  intros H. unfold new_events. rewrite H.
  rewrite skipn_app, skipn_all, Nat.sub_diag. reflexivity.
Qed.

Ltac as_exchange :=
  match goal with
  | |- ?c _ = _ =>
      match c with
      | bind self_sock (fun s =>
          bind (sock_api.send s ?cmd) (fun _ =>
            bind self_sock (fun s0 =>
              bind (reraise_timeout (sock_api.recv s0 KILO)) ?k))) =>
          change c with (exchange cmd k)
      end
  end;
  rewrite exchange_run.

Ltac run_cases :=
  repeat match goal with
    | |- context [match next_reply ?w with _ => _ end] =>
        destruct (next_reply w) as [?r|]
    | |- context [if compare_status ?c ?r then _ else _] =>
        destruct (compare_status c r)
    end;
  try reflexivity.

Lemma ehlo_run (st : state) :
  Smtp.ehlo st =
  match next_reply (snd st) with
  | Some r =>
      (if compare_status status.OK r then Return r
       else Raise (build_unexpected_status_error
                     status.OK (PyStr (slice_to 3 r))),
       exchanged ("EHLO" ++ CRLF) st)
  | None => (Raise socket_timeout, exchanged ("EHLO" ++ CRLF) st)
  end.
Proof. unfold Smtp.ehlo. as_exchange. run_cases. Qed.

Lemma starttls_run (st : state) :
  Smtp.starttls st =
  match next_reply (snd st) with
  | Some r =>
      if compare_status status.READY r
      then (Return r, upgraded (exchanged ("STARTTLS" ++ CRLF) st))
      else (Raise (build_unexpected_status_error
                     (PyStr (slice_to 3 r)) status.READY),
            exchanged ("STARTTLS" ++ CRLF) st)
  | None => (Raise socket_timeout, exchanged ("STARTTLS" ++ CRLF) st)
  end.
Proof. unfold Smtp.starttls. as_exchange. run_cases. Qed.

Lemma authenticate_plain_run (user pass_phrase : string) (st : state) :
  Smtp.authenticate_plain user pass_phrase st =
  let command_line :=
    build_auth_line "PLAIN" (b64encode (NULL ++ user ++ NULL ++ pass_phrase)) in
  match next_reply (snd st) with
  | Some r =>
      (Return (compare_status status.ACCEPTED r, r), exchanged command_line st)
  | None => (Raise socket_timeout, exchanged command_line st)
  end.
Proof.
  unfold Smtp.authenticate_plain. as_exchange.
  destruct (next_reply (snd st)) as [r|]; [|reflexivity].
  destruct (compare_status status.ACCEPTED r); reflexivity.
Qed.

Lemma mail_run (sender_address body : string) (st : state) :
  Smtp.mail sender_address body st =
  match wrap_in_brackets sender_address with
  | Raise e => (Raise e, st)
  | Return wrapped =>
      let command_line :=
        "MAIL" ++ " " ++ ("FROM:" ++ wrapped) ++ " "
        ++ (if truthy body then "BODY=" ++ body else "") ++ CRLF in
      match next_reply (snd st) with
      | Some r =>
          (if compare_status status.OK r then Return r
           else Raise (build_unexpected_status_error
                         status.OK (PyStr (slice_to 3 r))),
           exchanged command_line st)
      | None => (Raise socket_timeout, exchanged command_line st)
      end
  end.
Proof.
  unfold Smtp.mail, lift. unfold bind at 1.
  destruct (wrap_in_brackets sender_address) as [wrapped|e]; [|reflexivity].
  as_exchange. run_cases.
Qed.

Lemma send_recipients_run (recipient : string) (st : state) :
  Smtp.send_recipients recipient st =
  match wrap_in_brackets recipient with
  | Raise e => (Raise e, st)
  | Return wrapped =>
      let command_line := "RCPT" ++ " " ++ "TO:" ++ wrapped ++ CRLF in
      match next_reply (snd st) with
      | Some r =>
          (if compare_status status.OK r then Return r
           else Raise (build_unexpected_status_error
                         status.OK (PyStr (slice_to 3 r))),
           exchanged command_line st)
      | None => (Raise socket_timeout, exchanged command_line st)
      end
  end.
Proof.
  unfold Smtp.send_recipients, lift. unfold bind at 1.
  destruct (wrap_in_brackets recipient) as [wrapped|e]; [|reflexivity].
  as_exchange. run_cases.
Qed.

Lemma send_body_run (body : string) (st : state) :
  Smtp.send_body body st = (Return tt, body_sent body st).
Proof. reflexivity. Qed.

Lemma initiate_data_run (st : state) :
  Smtp.initiate_data st =
  match next_reply (snd st) with
  | Some r =>
      (if compare_status status.START_DATA r then Return r
       else Raise (build_unexpected_status_error
                     status.OK (PyStr (slice_to 3 r))),
       exchanged ("DATA" ++ CRLF) st)
  | None => (Raise socket_timeout, exchanged ("DATA" ++ CRLF) st)
  end.
Proof. unfold Smtp.initiate_data. as_exchange. run_cases. Qed.

Lemma end_data_run (st : state) :
  Smtp.end_data st =
  match next_reply (snd st) with
  | Some r =>
      (if compare_status status.OK r then Return r
       else Raise (build_unexpected_status_error
                     status.OK (PyStr (slice_to 3 r))),
       exchanged (CRLF ++ "." ++ CRLF) st)
  | None => (Raise socket_timeout, exchanged (CRLF ++ "." ++ CRLF) st)
  end.
Proof. unfold Smtp.end_data. as_exchange. run_cases. Qed.

Lemma quit_terminate_run (st : state) :
  Smtp.quit_terminate st =
  match next_reply (snd st) with
  | Some r =>
      if compare_status status.CLOSE_OK r
      then (Return r, closed (exchanged ("QUIT" ++ CRLF) st))
      else (Raise (build_unexpected_status_error
                     status.CLOSE_OK (PyStr (slice_to 3 r))),
            exchanged ("QUIT" ++ CRLF) st)
  | None => (Raise socket_timeout, exchanged ("QUIT" ++ CRLF) st)
  end.
Proof. unfold Smtp.quit_terminate. as_exchange. run_cases. Qed.

Lemma connect_run (st : state) :
  Smtp.connect st =
  match next_reply (snd st) with
  | Some r =>
      (if String.eqb (slice_to 3 r) (str status.READY) then Return r
       else Raise (build_unexpected_status_error
                     (PyStr (slice_to 3 r)) status.READY),
       connected st)
  | None => (Raise socket_timeout, connected st)
  end.
Proof.
  destruct st as [self [n ib tr]].
  unfold Smtp.connect, connected, next_reply, bind, self_sock, self_server_ip,
    reraise_timeout, sock_api.connect, sock_api.recv, do_event, emit.
  cbn [fst snd inbox trace next_fd].
  destruct ib as [|[r|] rest]; cbn [tl]; rewrite <- app_assoc; try reflexivity.
  destruct (String.eqb (slice_to 3 r) (str status.READY)); reflexivity.
Qed.

Lemma new_events_exchanged (command : string) (st : state) :
  new_events (snd st) (snd (exchanged command st))
  = [ev_send (sock (fst st)) command; ev_recv (sock (fst st)) KILO].
Proof. apply new_events_app. reflexivity. Qed.

Lemma new_events_closed_exchanged (command : string) (st : state) :
  new_events (snd st) (snd (closed (exchanged command st)))
  = [ev_send (sock (fst st)) command; ev_recv (sock (fst st)) KILO;
     ev_close (sock (fst st))].
Proof.
  apply new_events_app. cbn. rewrite <- app_assoc. reflexivity.
Qed.

Lemma compare_status_false (code : pyval) (response : string) :
  slice_to 3 response <> str code -> compare_status code response = false.
Proof.
  intros H. destruct (compare_status code response) eqn:E; [|reflexivity].
  apply compare_status_spec in E. contradiction.
Qed.

Lemma compare_status_true (code : pyval) (response : string) :
  slice_to 3 response = str code -> compare_status code response = true.
Proof. apply compare_status_spec. Qed.

Lemma append_cancel_l (p a b : string) : p ++ a = p ++ b -> a = b.
Proof.
  induction p as [|c p IH]; cbn; [auto|]. intros [= H]. auto.
Qed.

(** ** The claims about the session *)

(** C1, as the code has it.  For every reply received by [quit_terminate],
    exactly ["QUIT\r\n"] is sent.  When the reply code is 221 the socket is
    then closed and the reply returned; when it is not 221 a [RuntimeError]
    is raised and no [close] is made on the socket. *)
Theorem quit_terminate_closes_on_221 (st : state) (r : string) :
  next_reply (snd st) = Some r ->
  (slice_to 3 r = "221" ->
     fst (Smtp.quit_terminate st) = Return r /\
     new_events (snd st) (snd (snd (Smtp.quit_terminate st)))
     = [ev_send (sock (fst st)) ("QUIT" ++ CRLF);
        ev_recv (sock (fst st)) KILO;
        ev_close (sock (fst st))]) /\
  (slice_to 3 r <> "221" ->
     (exists message,
        fst (Smtp.quit_terminate st) = Raise (RuntimeError message)) /\
     new_events (snd st) (snd (snd (Smtp.quit_terminate st)))
     = [ev_send (sock (fst st)) ("QUIT" ++ CRLF);
        ev_recv (sock (fst st)) KILO]).
Proof.
  intros Hr. rewrite quit_terminate_run, Hr. split; intros Hcode.
  - rewrite (compare_status_true status.CLOSE_OK r Hcode).
    split; [reflexivity | apply new_events_closed_exchanged].
  - rewrite (compare_status_false status.CLOSE_OK r Hcode).
    split; [eexists; reflexivity | apply new_events_exchanged].
Qed.

Lemma quit_terminate_closes_on_221_witness :
  next_reply (snd (session ["221 bye"])) = Some "221 bye" /\
  fst (Smtp.quit_terminate (session ["221 bye"])) = Return "221 bye".
Proof.
  split; [reflexivity|].
  apply (proj1 (quit_terminate_closes_on_221
                  (session ["221 bye"]) "221 bye" eq_refl)).
  reflexivity.
Defined.

(** C1, as stated, fails: after a reply [500 error] the call raises and the
    socket of the session has not been closed. *)
Lemma quit_terminate_open_after_500 :
  next_reply (snd (session ["500 error"])) = Some "500 error" /\
  (exists message,
     fst (Smtp.quit_terminate (session ["500 error"]))
     = Raise (RuntimeError message)) /\
  is_closed (sock (fst (session ["500 error"])))
            (snd (snd (Smtp.quit_terminate (session ["500 error"])))) = false.
Proof.
  split; [reflexivity|]. split; [eexists; reflexivity | reflexivity].
Qed.

(** C2.  For every reply, [authenticate_plain] raises no [RuntimeError]: it
    returns [(True, reply)] when the first three characters of the reply
    are ["235"] and [(False, reply)] otherwise; the object is unchanged and
    nothing but the command and one [recv] happened on its socket. *)
Theorem authenticate_plain_returns_flag
    (user pass_phrase : string) (st : state) (r : string) :
  next_reply (snd st) = Some r ->
  (slice_to 3 r = "235" ->
     fst (Smtp.authenticate_plain user pass_phrase st) = Return (true, r)) /\
  (slice_to 3 r <> "235" ->
     fst (Smtp.authenticate_plain user pass_phrase st) = Return (false, r)) /\
  (forall message,
     fst (Smtp.authenticate_plain user pass_phrase st)
     <> Raise (RuntimeError message)) /\
  fst (snd (Smtp.authenticate_plain user pass_phrase st)) = fst st /\
  new_events (snd st) (snd (snd (Smtp.authenticate_plain user pass_phrase st)))
  = [ev_send (sock (fst st))
       (build_auth_line "PLAIN" (b64encode (NULL ++ user ++ NULL ++ pass_phrase)));
     ev_recv (sock (fst st)) KILO].
Proof.
  intros Hr. rewrite authenticate_plain_run. cbv zeta. rewrite Hr.
  cbn [fst snd]. repeat split.
  - intros H. now rewrite (compare_status_true status.ACCEPTED r H).
  - intros H. now rewrite (compare_status_false status.ACCEPTED r H).
  - discriminate.
  - apply new_events_exchanged.
Qed.

Lemma authenticate_plain_returns_flag_witness :
  next_reply (snd (session ["535 bad"])) = Some "535 bad" /\
  fst (Smtp.authenticate_plain "bob" "secret" (session ["535 bad"]))
  = Return (false, "535 bad").
Proof.
  split; [reflexivity|].
  apply (proj1 (proj2 (authenticate_plain_returns_flag
                         "bob" "secret" (session ["535 bad"]) "535 bad" eq_refl))).
  discriminate.
Defined.

(** C3, what the code sends.  With [wrapped] the bracketed address, [mail]
    sends ["MAIL FROM:" ++ wrapped ++ " BODY=" ++ body ++ CRLF] for a
    non-empty [body]; for an empty [body] it sends
    ["MAIL FROM:" ++ wrapped ++ " " ++ CRLF], with a space between the
    address and the line end, which is not the line
    ["MAIL FROM:" ++ wrapped ++ CRLF]. *)
Theorem mail_command_line
    (sender_address body wrapped : string) (st : state) :
  wrap_in_brackets sender_address = Return wrapped ->
  new_events (snd st) (snd (snd (Smtp.mail sender_address body st)))
  = [ev_send (sock (fst st))
       (if truthy body
        then "MAIL FROM:" ++ wrapped ++ " BODY=" ++ body ++ CRLF
        else "MAIL FROM:" ++ wrapped ++ " " ++ CRLF);
     ev_recv (sock (fst st)) KILO] /\
  "MAIL FROM:" ++ wrapped ++ " " ++ CRLF <> "MAIL FROM:" ++ wrapped ++ CRLF.
Proof.
  intros Hw. split.
  - rewrite mail_run, Hw. cbv zeta.
    replace ("MAIL" ++ " " ++ ("FROM:" ++ wrapped) ++ " "
             ++ (if truthy body then "BODY=" ++ body else "") ++ CRLF)
      with (if truthy body
            then "MAIL FROM:" ++ wrapped ++ " BODY=" ++ body ++ CRLF
            else "MAIL FROM:" ++ wrapped ++ " " ++ CRLF).
    + destruct (next_reply (snd st)) as [r|]; apply new_events_exchanged.
    + destruct (truthy body); cbn [append];
        rewrite ?append_assoc; reflexivity.
  - intros H. apply (append_cancel_l "MAIL FROM:") in H.
    apply append_cancel_l in H. discriminate H.
Qed.

Lemma mail_command_line_witness :
  wrap_in_brackets "a@x" = Return "<a@x>" /\
  new_events (snd (session ["250 ok"]))
             (snd (snd (Smtp.mail "a@x" "" (session ["250 ok"]))))
  = [ev_send (PlainSocket 3) ("MAIL FROM:<a@x> " ++ CRLF);
     ev_recv (PlainSocket 3) KILO].
Proof.
  split; [reflexivity|].
  apply (proj1 (mail_command_line "a@x" "" "<a@x>" (session ["250 ok"]) eq_refl)).
Defined.

(** C4, what the code raises.  For a reply whose first three characters
    are not ["250"], [ehlo] raises the error built from the pair (250, code
    of the reply) in this order, so that its message names 250 as the
    unexpected code and the code of the reply as the awaited one. *)
Theorem ehlo_error_names_250_as_observed (st : state) (r : string) :
  next_reply (snd st) = Some r ->
  slice_to 3 r <> "250" ->
  fst (Smtp.ehlo st)
  = Raise (RuntimeError ("Unexpected status code: 250 instead of " ++ slice_to 3 r)) /\
  fst (Smtp.ehlo st)
  = Raise (build_unexpected_status_error status.OK (PyStr (slice_to 3 r))).
Proof.
  intros Hr Hcode. rewrite ehlo_run, Hr.
  rewrite (compare_status_false status.OK r Hcode). split; reflexivity.
Qed.

Lemma ehlo_error_names_250_as_observed_witness :
  next_reply (snd (session ["500 error"])) = Some "500 error" /\
  fst (Smtp.ehlo (session ["500 error"]))
  = Raise (RuntimeError "Unexpected status code: 250 instead of 500") /\
  build_unexpected_status_error (PyStr "500") status.OK
  = RuntimeError "Unexpected status code: 500 instead of 250".
Proof.
  split; [reflexivity|]. split; [|reflexivity].
  apply (proj1 (ehlo_error_names_250_as_observed
                  (session ["500 error"]) "500 error" eq_refl
                  ltac:(discriminate))).
Defined.

(** ** The transport *)

Lemma perform_same_transport (c : call) (st : state) :
  is_starttls c = false -> same_transport st (perform c st).
Proof.
  destruct c; cbn [is_starttls perform]; intros H; try discriminate H.
  - rewrite connect_run.
    destruct (next_reply (snd st)); cbn [snd]; constructor.
  - rewrite ehlo_run.
    destruct (next_reply (snd st)); cbn [snd]; constructor.
  - rewrite authenticate_plain_run. cbv zeta.
    destruct (next_reply (snd st)); cbn [snd]; constructor.
  - rewrite mail_run.
    destruct (wrap_in_brackets sender_address); cbv zeta;
      [destruct (next_reply (snd st))|]; cbn [snd]; constructor.
  - rewrite send_recipients_run.
    destruct (wrap_in_brackets recipient); cbv zeta;
      [destruct (next_reply (snd st))|]; cbn [snd]; constructor.
  - rewrite send_body_run. cbn [snd]. constructor.
  - rewrite initiate_data_run.
    destruct (next_reply (snd st)); cbn [snd]; constructor.
  - rewrite end_data_run.
    destruct (next_reply (snd st)); cbn [snd]; constructor.
  - rewrite quit_terminate_run.
    destruct (next_reply (snd st)) as [r|]; cbn [snd]; [|constructor].
    destruct (compare_status status.CLOSE_OK r); cbn [snd]; constructor.
Qed.

Lemma same_transport_object (st st' : state) :
  same_transport st st' -> fst st' = fst st.
Proof. intros []; reflexivity. Qed.

Lemma same_transport_events (st st' : state) :
  same_transport st st' ->
  exists evs, trace (snd st') = (trace (snd st) ++ evs)%list /\
              Forall (on_socket (sock (fst st))) evs.
Proof.
  intros [|command|command| |body].
  - exists []. split; [now rewrite app_nil_r | constructor].
  - eexists. split; [reflexivity | repeat constructor].
  - eexists. split; [cbn; rewrite <- app_assoc; reflexivity | repeat constructor].
  - eexists. split; [reflexivity | repeat constructor].
  - eexists. split; [reflexivity | repeat constructor].
Qed.

Lemma perform_all_same_transport (cs : list call) :
  forall st,
    forallb (fun c => negb (is_starttls c)) cs = true ->
    fst (perform_all cs st) = fst st /\
    exists evs, trace (snd (perform_all cs st)) = (trace (snd st) ++ evs)%list /\
                Forall (on_socket (sock (fst st))) evs.
Proof.
  induction cs as [|c cs IH]; intros st Hcs.
  - split; [reflexivity|]. exists []. split; [now rewrite app_nil_r | constructor].
  - cbn [forallb] in Hcs. apply andb_true_iff in Hcs as [Hc Hcs].
    apply negb_true_iff in Hc.
    pose proof (perform_same_transport c st Hc) as Hstep.
    pose proof (same_transport_object _ _ Hstep) as Hobj.
    destruct (same_transport_events _ _ Hstep) as (evs1 & Ht1 & Hs1).
    destruct (IH (perform c st) Hcs) as (Hobj2 & evs2 & Ht2 & Hs2).
    cbn [perform_all fold_left]. fold (perform_all cs (perform c st)).
    split; [congruence|].
    exists (evs1 ++ evs2)%list. split.
    + rewrite Ht2, Ht1, app_assoc. reflexivity.
    + apply Forall_app. split; [exact Hs1|]. now rewrite Hobj in Hs2.
Qed.

Lemma SSLSocket_fresh (s : socket) : SSLSocket s <> s.
Proof. induction s as [n|s IH]; [discriminate|]. intros [= H]. auto. Qed.

(** C8.  For every reply received by [starttls]: ["STARTTLS\r\n"] is sent
    and the reply read on the socket of the session; when the reply code
    is 220 the reply is returned and the [sock] field then holds the
    [SSLSocket] wrapping the former socket; otherwise a [RuntimeError] is
    raised and the field is unchanged.  No call other than [starttls]
    changes the object, and after a successful [starttls] every event of
    every sequence of such calls is on the wrapping socket, none on the
    former one. *)
Theorem starttls_replaces_transport (st : state) (r : string) :
  next_reply (snd st) = Some r ->
  (exists evs,
     new_events (snd st) (snd (snd (Smtp.starttls st)))
     = ev_send (sock (fst st)) ("STARTTLS" ++ CRLF)
       :: ev_recv (sock (fst st)) KILO :: evs) /\
  (slice_to 3 r = "220" ->
     fst (Smtp.starttls st) = Return r /\
     sock (fst (snd (Smtp.starttls st))) = SSLSocket (sock (fst st)) /\
     SSLSocket (sock (fst st)) <> sock (fst st) /\
     forall cs,
       forallb (fun c => negb (is_starttls c)) cs = true ->
       sock (fst (perform_all cs (snd (Smtp.starttls st))))
       = SSLSocket (sock (fst st)) /\
       Forall (on_socket (SSLSocket (sock (fst st))))
         (new_events (snd (snd (Smtp.starttls st)))
                     (snd (perform_all cs (snd (Smtp.starttls st)))))) /\
  (slice_to 3 r <> "220" ->
     (exists message, fst (Smtp.starttls st) = Raise (RuntimeError message)) /\
     sock (fst (snd (Smtp.starttls st))) = sock (fst st)) /\
  (forall c st', is_starttls c = false -> fst (perform c st') = fst st').
Proof.
  intros Hr. rewrite starttls_run, Hr. repeat split.
  - destruct (compare_status status.READY r); cbn [snd].
    + exists [ev_ssl_wrap (sock (fst st))]. apply new_events_app.
      cbn. rewrite <- app_assoc. reflexivity.
    + exists []. apply new_events_exchanged.
  - now rewrite (compare_status_true status.READY r H).
  - now rewrite (compare_status_true status.READY r H).
  - apply SSLSocket_fresh.
  - rewrite (compare_status_true status.READY r H). cbn [snd].
    destruct (perform_all_same_transport cs
                (upgraded (exchanged ("STARTTLS" ++ CRLF) st)) H0) as [Hobj _].
    now rewrite Hobj.
  - rewrite (compare_status_true status.READY r H). cbn [snd].
    destruct (perform_all_same_transport cs
                (upgraded (exchanged ("STARTTLS" ++ CRLF) st)) H0)
      as (_ & evs & Ht & Hs).
    rewrite (new_events_app _ _ _ Ht). exact Hs.
  - rewrite (compare_status_false status.READY r H). eexists; reflexivity.
  - now rewrite (compare_status_false status.READY r H).
  - intros c st' Hc.
    exact (same_transport_object _ _ (perform_same_transport c st' Hc)).
Qed.

Lemma starttls_replaces_transport_witness :
  next_reply (snd (session ["220 go ahead"; "250 ok"])) = Some "220 go ahead" /\
  sock (fst (snd (Smtp.starttls (session ["220 go ahead"; "250 ok"]))))
  = SSLSocket (PlainSocket 3) /\
  Forall (on_socket (SSLSocket (PlainSocket 3)))
    (new_events
       (snd (snd (Smtp.starttls (session ["220 go ahead"; "250 ok"]))))
       (snd (perform_all [call_ehlo; call_quit_terminate]
               (snd (Smtp.starttls (session ["220 go ahead"; "250 ok"])))))).
Proof.
  pose proof (proj1 (proj2 (starttls_replaces_transport
                              (session ["220 go ahead"; "250 ok"])
                              "220 go ahead" eq_refl)) eq_refl)
    as (_ & Hsock & _ & Hall).
  split; [reflexivity|]. split; [exact Hsock|].
  exact (proj2 (Hall [call_ehlo; call_quit_terminate] eq_refl)).
Defined.

(** C9.  Whatever port is given to the constructor, [connect] connects the
    socket to port 25 of the server; the outcome of [connect] and the
    world it leaves do not depend on the value stored in the [port]
    field, which [connect] leaves as it is. *)
Theorem connect_uses_port_25 (ip : string) (p : option Z) (w : world) :
  (exists evs,
     new_events (snd (Smtp.__init__ ip p w))
                (snd (snd (Smtp.connect (Smtp.__init__ ip p w))))
     = ev_connect (sock (fst (Smtp.__init__ ip p w))) ip 25 :: evs) /\
  (forall self q w',
     fst (Smtp.connect (with_port q self, w')) = fst (Smtp.connect (self, w')) /\
     snd (snd (Smtp.connect (with_port q self, w')))
     = snd (snd (Smtp.connect (self, w'))) /\
     fst (snd (Smtp.connect (with_port q self, w'))) = with_port q self).
Proof.
  split.
  - exists [ev_recv (sock (fst (Smtp.__init__ ip p w))) KILO].
    rewrite connect_run.
    destruct (next_reply (snd (Smtp.__init__ ip p w))); cbn [snd];
      apply new_events_app; reflexivity.
  - intros self q w'. rewrite !connect_run. cbn [snd with_port].
    destruct (next_reply w') as [r|]; repeat split.
Qed.

(** ** The claims about the helpers *)

(** C5.  Wrapping twice is wrapping once, for every address (on the empty
    string both sides raise [IndexError]); an address that starts with [<]
    and ends with [>] is returned as it is; [mail] and [send_recipients]
    put the result of this same function on the wire. *)
Theorem wrap_in_brackets_idempotent (x : string) :
  (y <~ wrap_in_brackets x ;; wrap_in_brackets y) = wrap_in_brackets x /\
  (index_first x = Return "<"%char -> index_last x = Return ">"%char ->
   wrap_in_brackets x = Return x) /\
  (forall wrapped body st,
     wrap_in_brackets x = Return wrapped ->
     wrap_in_brackets wrapped = Return wrapped /\
     (exists parameters,
        new_events (snd st) (snd (snd (Smtp.mail x body st)))
        = [ev_send (sock (fst st)) ("MAIL FROM:" ++ wrapped ++ parameters);
           ev_recv (sock (fst st)) KILO]) /\
     new_events (snd st) (snd (snd (Smtp.send_recipients x st)))
     = [ev_send (sock (fst st)) ("RCPT TO:" ++ wrapped ++ CRLF);
        ev_recv (sock (fst st)) KILO]).
Proof.
  split; [apply wrap_in_brackets_twice|].
  split; [apply wrap_in_brackets_bracketed|].
  intros wrapped body st Hw. split; [|split].
  - destruct (wrap_in_brackets_shape _ _ Hw).
    now apply wrap_in_brackets_bracketed.
  - exists (" " ++ (if truthy body then "BODY=" ++ body else "") ++ CRLF).
    rewrite mail_run, Hw. cbv zeta.
    replace ("MAIL" ++ " " ++ ("FROM:" ++ wrapped) ++ " "
             ++ (if truthy body then "BODY=" ++ body else "") ++ CRLF)
      with ("MAIL FROM:" ++ wrapped ++ " "
            ++ (if truthy body then "BODY=" ++ body else "") ++ CRLF)
      by (cbn [append]; rewrite ?append_assoc; reflexivity).
    destruct (next_reply (snd st)); apply new_events_exchanged.
  - rewrite send_recipients_run, Hw. cbv zeta.
    destruct (next_reply (snd st)); apply new_events_exchanged.
Qed.

Lemma wrap_in_brackets_idempotent_witness :
  index_first "<a@x>" = Return "<"%char /\
  index_last "<a@x>" = Return ">"%char /\
  wrap_in_brackets "<a@x>" = Return "<a@x>".
Proof.
  split; [reflexivity|]. split; [reflexivity|].
  apply (proj1 (proj2 (wrap_in_brackets_idempotent "<a@x>"))); reflexivity.
Defined.

(** C6.  For every code and every reply, [compare_status] is a total
    boolean function that answers [true] exactly when the first three
    characters of the reply are the string form of the code; what follows
    these three characters does not matter, and a reply shorter than a
    three-character code is answered with [false], not with an error. *)
Theorem compare_status_first_three (code : pyval) (prefix tail : string) :
  String.length prefix = 3 ->
  (compare_status code (prefix ++ tail) = true <-> prefix = str code) /\
  (forall response,
     compare_status code response = true <-> slice_to 3 response = str code) /\
  (forall response,
     String.length response < 3 -> String.length (str code) = 3 ->
     compare_status code response = false).
Proof.
  intros Hlen. split; [|split].
  - rewrite compare_status_spec, <- Hlen, slice_to_app. reflexivity.
  - apply compare_status_spec.
  - intros response Hshort Hcode. apply compare_status_false.
    intros H. pose proof (slice_to_length 3 response) as Hle.
    rewrite H, Hcode in Hle. lia.
Qed.

Lemma compare_status_first_three_witness :
  String.length "250" = 3 /\
  compare_status status.OK ("250" ++ " ok") = true.
Proof.
  split; [reflexivity|].
  apply (proj1 (compare_status_first_three status.OK "250" " ok" eq_refl)).
  reflexivity.
Defined.

(** C7.  For a user and a pass phrase without NUL, the token that
    [authenticate_plain] sends after ["AUTH PLAIN "] decodes, and the
    decoded bytes split on NUL are exactly the empty string, the user and
    the pass phrase. *)
Theorem authenticate_plain_token_roundtrip
    (user pass_phrase : string) (st : state) :
  contains "000" user = false ->
  contains "000" pass_phrase = false ->
  exists token,
    new_events (snd st) (snd (snd (Smtp.authenticate_plain user pass_phrase st)))
    = [ev_send (sock (fst st)) ("AUTH PLAIN " ++ token ++ CRLF);
       ev_recv (sock (fst st)) KILO] /\
    option_map (split "000") (b64decode token)
    = Some [EmptyString; user; pass_phrase].
Proof.
  intros Hu Hp. exists (b64encode (NULL ++ user ++ NULL ++ pass_phrase)).
  split.
  - rewrite authenticate_plain_run. cbv zeta.
    destruct (next_reply (snd st)); apply new_events_exchanged.
  - rewrite b64decode_b64encode. cbn [option_map].
    now rewrite split_packed_credentials.
Qed.

Lemma authenticate_plain_token_roundtrip_witness :
  contains "000" "bob" = false /\
  contains "000" "secret" = false /\
  exists token,
    new_events (snd (session ["235 ok"]))
      (snd (snd (Smtp.authenticate_plain "bob" "secret" (session ["235 ok"]))))
    = [ev_send (PlainSocket 3) ("AUTH PLAIN " ++ token ++ CRLF);
       ev_recv (PlainSocket 3) KILO] /\
    option_map (split "000") (b64decode token)
    = Some [EmptyString; "bob"; "secret"].
Proof.
  split; [reflexivity|]. split; [reflexivity|].
  apply (authenticate_plain_token_roundtrip
           "bob" "secret" (session ["235 ok"]) eq_refl eq_refl).
Defined.

(** C10.  On the empty string [wrap_in_brackets] raises [IndexError] and
    returns no address; on every other string it returns an address that
    starts with [<] and ends with [>]. *)
Theorem wrap_in_brackets_needs_nonempty (x : string) :
  (x = "" ->
   wrap_in_brackets x = Raise IndexError /\
   forall y, wrap_in_brackets x <> Return y) /\
  (x <> "" ->
   exists y, wrap_in_brackets x = Return y /\
             index_first y = Return "<"%char /\
             index_last y = Return ">"%char).
Proof.
  split.
  - intros ->. split; [reflexivity | discriminate].
  - intros Hx. destruct (wrap_in_brackets_total x Hx) as [y Hy].
    exists y. split; [exact Hy | exact (wrap_in_brackets_shape x y Hy)].
Qed.

Lemma wrap_in_brackets_needs_nonempty_witness :
  wrap_in_brackets "" = Raise IndexError /\
  exists y, wrap_in_brackets "a@x" = Return y /\
            index_first y = Return "<"%char /\
            index_last y = Return ">"%char.
Proof.
  split.
  - apply (proj1 (wrap_in_brackets_needs_nonempty "")). reflexivity.
  - apply (proj2 (wrap_in_brackets_needs_nonempty "a@x")). discriminate.
Defined.

(** * Further properties of the module *)

(** ** Addresses *)

Lemma append_nil_r (s : string) : s ++ "" = s.
Proof. induction s as [|c s IH]; cbn; [reflexivity | now rewrite IH]. Qed.

Lemma length_append (a b : string) :
  String.length (a ++ b) = String.length a + String.length b.
Proof. induction a as [|c a IH]; cbn; [reflexivity | now rewrite IH]. Qed.

Lemma index_first_some (x : string) :
  x <> "" -> exists first, index_first x = Return first.
Proof. destruct x as [|c r]; [congruence|]. intros _. now exists c. Qed.

Lemma index_last_some (x : string) :
  x <> "" -> exists last, index_last x = Return last.
Proof. destruct x as [|c r]; [congruence|]. intros _. apply index_last_total. Qed.

Lemma wrap_in_brackets_affixes (x : string) (first last : ascii) :
  index_first x = Return first -> index_last x = Return last ->
  wrap_in_brackets x = Return (opening_for first ++ x ++ closing_for last).
Proof.
  intros Hf Hl. unfold wrap_in_brackets, opening_for, closing_for.
  rewrite Hf. cbn [obind].
  destruct (Ascii.eqb first "<").
  - rewrite Hl. cbn [obind append].
    destruct (Ascii.eqb last ">"); [now rewrite append_nil_r | reflexivity].
  - assert (Hl' : index_last ("<" ++ x) = Return last).
    { destruct x as [|c r]; [discriminate Hf|]. exact Hl. }
    rewrite Hl'. cbn [obind].
    destruct (Ascii.eqb last ">");
      [now rewrite append_nil_r | now rewrite append_assoc].
Qed.

Lemma contains_app (c : ascii) (a b : string) :
  contains c (a ++ b) = contains c a || contains c b.
Proof.
  induction a as [|d a IH]; cbn; [reflexivity|].
  now rewrite IH, orb_assoc.
Qed.

Lemma wrap_in_brackets_keeps_chars (c : ascii) (x wrapped : string) :
  wrap_in_brackets x = Return wrapped ->
  contains c x = true -> contains c wrapped = true.
Proof.
  intros Hw Hc.
  assert (Hne : x <> "") by (intros ->; discriminate Hw).
  destruct (index_first_some x Hne) as [first Hf].
  destruct (index_last_some x Hne) as [last Hl].
  rewrite (wrap_in_brackets_affixes x first last Hf Hl) in Hw.
  injection Hw as <-. rewrite !contains_app, Hc.
  now rewrite orb_true_r.
Qed.

(** X1.  [wrap_in_brackets] only ever adds brackets: for an address with
    first character [first] and last character [last] the result is the
    address itself with ["<"] put in front unless [first] is [<], and
    [">"] put behind unless [last] is [>]; the two tests are independent,
    so a half-bracketed address is completed, not bracketed again. *)
Theorem wrap_in_brackets_adds_only_brackets
    (x : string) (first last : ascii) :
  index_first x = Return first -> index_last x = Return last ->
  wrap_in_brackets x = Return (opening_for first ++ x ++ closing_for last) /\
  String.length x <= String.length (opening_for first ++ x ++ closing_for last)
  /\ String.length (opening_for first ++ x ++ closing_for last)
     <= String.length x + 2.
Proof.
  intros Hf Hl. split; [now apply wrap_in_brackets_affixes|].
  rewrite !length_append. unfold opening_for, closing_for.
  destruct (Ascii.eqb first "<"), (Ascii.eqb last ">"); cbn; lia.
Qed.

Lemma wrap_in_brackets_adds_only_brackets_witness :
  index_first "<a@x" = Return "<"%char /\
  index_last "<a@x" = Return "x"%char /\
  wrap_in_brackets "<a@x" = Return "<a@x>".
Proof.
  split; [reflexivity|]. split; [reflexivity|].
  apply (proj1 (wrap_in_brackets_adds_only_brackets
                  "<a@x" "<" "x" eq_refl eq_refl)).
Defined.

(** X2.  [mail] and [send_recipients] raise [IndexError] exactly when the
    address is empty, and then they have done nothing: the object and the
    world are as before, nothing was sent and no reply was read. *)
Theorem empty_address_raises_before_io
    (address body : string) (st : state) :
  (exn_of (fst (Smtp.mail address body st)) = Some IndexError <-> address = "")
  /\ (exn_of (fst (Smtp.send_recipients address st)) = Some IndexError
      <-> address = "")
  /\ (address = "" ->
      snd (Smtp.mail address body st) = st /\
      snd (Smtp.send_recipients address st) = st).
Proof.
  rewrite mail_run, send_recipients_run.
  destruct address as [|c r].
  - cbn. repeat split; auto.
  - destruct (wrap_in_brackets_total (String c r)) as [w Hw]; [discriminate|].
    rewrite Hw. cbv zeta.
    destruct (next_reply (snd st)) as [reply|];
      [destruct (compare_status status.OK reply)|];
      cbn; repeat split; intros; discriminate.
Qed.

Lemma empty_address_raises_before_io_witness :
  snd (Smtp.mail "" "8BITMIME" (session ["250 ok"])) = session ["250 ok"].
Proof.
  apply (proj2 (proj2 (empty_address_raises_before_io
                         "" "8BITMIME" (session ["250 ok"])))).
  reflexivity.
Defined.

(** X3.  Addresses are not filtered: every character of a non-empty
    address given to [mail] or [send_recipients], a carriage return or a
    line feed included, is in the command line that is sent. *)
Theorem address_reaches_wire_unfiltered
    (c : ascii) (address body : string) (st : state) :
  address <> "" ->
  contains c address = true ->
  (exists line,
     new_events (snd st) (snd (snd (Smtp.mail address body st)))
     = [ev_send (sock (fst st)) line; ev_recv (sock (fst st)) KILO] /\
     contains c line = true) /\
  (exists line,
     new_events (snd st) (snd (snd (Smtp.send_recipients address st)))
     = [ev_send (sock (fst st)) line; ev_recv (sock (fst st)) KILO] /\
     contains c line = true).
Proof.
  intros Hne Hc.
  destruct (wrap_in_brackets_total address Hne) as [w Hw].
  pose proof (wrap_in_brackets_keeps_chars c address w Hw Hc) as Hcw.
  rewrite mail_run, send_recipients_run, Hw. cbv zeta. split.
  - eexists. split.
    + destruct (next_reply (snd st)) as [reply|]; apply new_events_exchanged.
    + rewrite !contains_app, Hcw. cbn. now rewrite !orb_true_r.
  - eexists. split.
    + destruct (next_reply (snd st)) as [reply|]; apply new_events_exchanged.
    + rewrite !contains_app, Hcw. cbn. now rewrite !orb_true_r.
Qed.

Lemma address_reaches_wire_unfiltered_witness :
  exists line,
    new_events (snd (session ["250 ok"]))
      (snd (snd (Smtp.send_recipients ("b@y" ++ CRLF ++ "DATA")
                   (session ["250 ok"]))))
    = [ev_send (PlainSocket 3) line; ev_recv (PlainSocket 3) KILO] /\
    contains "010" line = true.
Proof.
  apply (proj2 (address_reaches_wire_unfiltered
                  "010" ("b@y" ++ CRLF ++ "DATA") "" (session ["250 ok"])
                  ltac:(discriminate) eq_refl)).
Defined.

(** ** The reply contract of each command *)

Ltac by_status code r H :=
  first [ rewrite (compare_status_true code r H)
        | rewrite (compare_status_false code r H) ];
  reflexivity.

(** X4.  [connect] sends nothing: it connects and reads one reply.  The
    reply is returned when its first three characters are ["220"];
    otherwise the error raised names the code of the reply first and 220
    second.  The object is unchanged either way. *)
Theorem connect_greeting_contract (st : state) (r : string) :
  next_reply (snd st) = Some r ->
  (slice_to 3 r = "220" -> fst (Smtp.connect st) = Return r) /\
  (slice_to 3 r <> "220" ->
   fst (Smtp.connect st)
   = Raise (RuntimeError ("Unexpected status code: " ++ slice_to 3 r
                          ++ " instead of 220"))) /\
  fst (snd (Smtp.connect st)) = fst st /\
  new_events (snd st) (snd (snd (Smtp.connect st)))
  = [ev_connect (sock (fst st)) (server_ip (fst st)) 25;
     ev_recv (sock (fst st)) KILO] /\
  forallb (fun e => negb (is_send_event e))
    (new_events (snd st) (snd (snd (Smtp.connect st)))) = true.
Proof.
  intros Hr. rewrite connect_run, Hr. cbn [fst snd].
  assert (Hev : new_events (snd st) (snd (connected st))
                = [ev_connect (sock (fst st)) (server_ip (fst st)) 25;
                   ev_recv (sock (fst st)) KILO])
    by (apply new_events_app; reflexivity).
  rewrite Hev. repeat split.
  - intros H. change (str status.READY) with "220".
    rewrite H. reflexivity.
  - intros H. change (str status.READY) with "220".
    destruct (String.eqb (slice_to 3 r) "220") eqn:E; [|reflexivity].
    apply String.eqb_eq in E. contradiction.
Qed.

Lemma connect_greeting_contract_witness :
  next_reply (snd (session ["554 no service"])) = Some "554 no service" /\
  fst (Smtp.connect (session ["554 no service"]))
  = Raise (RuntimeError "Unexpected status code: 554 instead of 220").
Proof.
  split; [reflexivity|].
  apply (proj1 (proj2 (connect_greeting_contract
                         (session ["554 no service"]) "554 no service"
                         eq_refl))).
  discriminate.
Defined.

(** X5.  For a non-empty address and every reply, [mail] returns the reply
    when its code is 250; otherwise it raises the error whose message
    names 250 first and the code of the reply second.  One reply is
    consumed and the object is unchanged. *)
Theorem mail_reply_contract
    (sender_address body wrapped : string) (st : state) (r : string) :
  wrap_in_brackets sender_address = Return wrapped ->
  next_reply (snd st) = Some r ->
  (slice_to 3 r = "250" ->
   fst (Smtp.mail sender_address body st) = Return r) /\
  (slice_to 3 r <> "250" ->
   fst (Smtp.mail sender_address body st)
   = Raise (RuntimeError ("Unexpected status code: 250 instead of "
                          ++ slice_to 3 r))) /\
  fst (snd (Smtp.mail sender_address body st)) = fst st /\
  inbox (snd (snd (Smtp.mail sender_address body st))) = tl (inbox (snd st)).
Proof.
  intros Hw Hr. rewrite mail_run, Hw. cbv zeta. rewrite Hr.
  repeat split; intros H; by_status status.OK r H.
Qed.

Lemma mail_reply_contract_witness :
  wrap_in_brackets "a@x" = Return "<a@x>" /\
  next_reply (snd (session ["250 ok"])) = Some "250 ok" /\
  fst (Smtp.mail "a@x" "8BITMIME" (session ["250 ok"])) = Return "250 ok".
Proof.
  split; [reflexivity|]. split; [reflexivity|].
  apply (proj1 (mail_reply_contract "a@x" "8BITMIME" "<a@x>"
                  (session ["250 ok"]) "250 ok" eq_refl eq_refl)).
  reflexivity.
Defined.

(** X6.  For a non-empty recipient and every reply, [send_recipients]
    sends ["RCPT TO:"], the bracketed recipient and CRLF, with nothing
    between the address and the line end, and reads one reply; it
    returns the reply when its code is 250 and otherwise raises the error
    whose message names 250 first and the code of the reply second.  The
    object is unchanged. *)
Theorem send_recipients_contract
    (recipient wrapped : string) (st : state) (r : string) :
  wrap_in_brackets recipient = Return wrapped ->
  next_reply (snd st) = Some r ->
  new_events (snd st) (snd (snd (Smtp.send_recipients recipient st)))
  = [ev_send (sock (fst st)) ("RCPT TO:" ++ wrapped ++ CRLF);
     ev_recv (sock (fst st)) KILO] /\
  (slice_to 3 r = "250" ->
   fst (Smtp.send_recipients recipient st) = Return r) /\
  (slice_to 3 r <> "250" ->
   fst (Smtp.send_recipients recipient st)
   = Raise (RuntimeError ("Unexpected status code: 250 instead of "
                          ++ slice_to 3 r))) /\
  fst (snd (Smtp.send_recipients recipient st)) = fst st.
Proof.
  intros Hw Hr. rewrite send_recipients_run, Hw. cbv zeta. rewrite Hr.
  split; [apply new_events_exchanged|].
  repeat split; intros H; by_status status.OK r H.
Qed.

Lemma send_recipients_contract_witness :
  wrap_in_brackets "b@y" = Return "<b@y>" /\
  next_reply (snd (session ["550 no such user"])) = Some "550 no such user" /\
  fst (Smtp.send_recipients "b@y" (session ["550 no such user"]))
  = Raise (RuntimeError "Unexpected status code: 250 instead of 550").
Proof.
  split; [reflexivity|]. split; [reflexivity|].
  apply (proj1 (proj2 (proj2 (send_recipients_contract "b@y" "<b@y>"
                  (session ["550 no such user"]) "550 no such user"
                  eq_refl eq_refl)))).
  discriminate.
Defined.

(** X7.  For every reply, [initiate_data] sends ["DATA\r\n"] and returns
    the reply when its code is 354.  Any other reply, a 250 included,
    raises the error whose message names 250, not 354, before the code of
    the reply. *)
Theorem initiate_data_contract (st : state) (r : string) :
  next_reply (snd st) = Some r ->
  new_events (snd st) (snd (snd (Smtp.initiate_data st)))
  = [ev_send (sock (fst st)) ("DATA" ++ CRLF);
     ev_recv (sock (fst st)) KILO] /\
  (slice_to 3 r = "354" -> fst (Smtp.initiate_data st) = Return r) /\
  (slice_to 3 r <> "354" ->
   fst (Smtp.initiate_data st)
   = Raise (RuntimeError ("Unexpected status code: 250 instead of "
                          ++ slice_to 3 r))) /\
  fst (snd (Smtp.initiate_data st)) = fst st.
Proof.
  intros Hr. rewrite initiate_data_run, Hr.
  split; [apply new_events_exchanged|].
  repeat split; intros H; by_status status.START_DATA r H.
Qed.

Lemma initiate_data_contract_witness :
  next_reply (snd (session ["250 ok"])) = Some "250 ok" /\
  fst (Smtp.initiate_data (session ["250 ok"]))
  = Raise (RuntimeError "Unexpected status code: 250 instead of 250").
Proof.
  split; [reflexivity|].
  apply (proj1 (proj2 (proj2 (initiate_data_contract
                  (session ["250 ok"]) "250 ok" eq_refl)))).
  discriminate.
Defined.

(** X8.  For every reply, [end_data] sends exactly CRLF, a dot and CRLF,
    reads one reply and returns it when its code is 250; otherwise it
    raises the error whose message names 250 first and the code of the
    reply second.  The socket is not closed and the object is unchanged. *)
Theorem end_data_contract (st : state) (r : string) :
  next_reply (snd st) = Some r ->
  new_events (snd st) (snd (snd (Smtp.end_data st)))
  = [ev_send (sock (fst st)) (CRLF ++ "." ++ CRLF);
     ev_recv (sock (fst st)) KILO] /\
  (slice_to 3 r = "250" -> fst (Smtp.end_data st) = Return r) /\
  (slice_to 3 r <> "250" ->
   fst (Smtp.end_data st)
   = Raise (RuntimeError ("Unexpected status code: 250 instead of "
                          ++ slice_to 3 r))) /\
  fst (snd (Smtp.end_data st)) = fst st.
Proof.
  intros Hr. rewrite end_data_run, Hr.
  split; [apply new_events_exchanged|].
  repeat split; intros H; by_status status.OK r H.
Qed.

Lemma end_data_contract_witness :
  next_reply (snd (session ["250 queued"])) = Some "250 queued" /\
  fst (Smtp.end_data (session ["250 queued"])) = Return "250 queued".
Proof.
  split; [reflexivity|].
  apply (proj1 (proj2 (end_data_contract
                         (session ["250 queued"]) "250 queued" eq_refl))).
  reflexivity.
Defined.

(** ** Sequences of calls *)

Lemma new_events_connected (st : state) :
  new_events (snd st) (snd (connected st))
  = [ev_connect (sock (fst st)) (server_ip (fst st)) SMTP_PORT;
     ev_recv (sock (fst st)) KILO].
Proof. apply new_events_app. reflexivity. Qed.

Lemma new_events_same (w : world) : new_events w w = [].
Proof. apply new_events_app. now rewrite app_nil_r. Qed.

Lemma truthy_wraps (address : string) :
  truthy address = true -> exists w, wrap_in_brackets address = Return w.
Proof.
  intros H. apply wrap_in_brackets_total. intros ->. discriminate H.
Qed.

Ltac trace_eq :=
  cbn [fst snd trace exchanged closed upgraded connected body_sent emit];
  first [ reflexivity
        | rewrite <- app_assoc; reflexivity
        | symmetry; apply app_nil_r ].

Ltac one_call :=
  eexists; split; [trace_eq | split; [constructor | try reflexivity]].

Lemma perform_call_events (c : call) (st : state) :
  exists evs,
    trace (snd (perform c st)) = (trace (snd st) ++ evs)%list /\
    call_events (sock (fst st)) evs /\
    (is_quit_terminate c = false ->
     forallb (fun e => negb (is_close_event e)) evs = true).
Proof.
  destruct c; cbn [perform is_quit_terminate].
  - rewrite connect_run. destruct (next_reply (snd st)); one_call.
  - rewrite ehlo_run. destruct (next_reply (snd st)); one_call.
  - rewrite starttls_run. destruct (next_reply (snd st)) as [r|];
      [destruct (compare_status status.READY r)|]; one_call.
  - rewrite authenticate_plain_run. cbv zeta.
    destruct (next_reply (snd st)); one_call.
  - rewrite mail_run. destruct (wrap_in_brackets sender_address); cbv zeta;
      [destruct (next_reply (snd st))|]; one_call.
  - rewrite send_recipients_run.
    destruct (wrap_in_brackets recipient); cbv zeta;
      [destruct (next_reply (snd st))|]; one_call.
  - rewrite send_body_run. one_call.
  - rewrite initiate_data_run. destruct (next_reply (snd st)); one_call.
  - rewrite end_data_run. destruct (next_reply (snd st)); one_call.
  - rewrite quit_terminate_run. destruct (next_reply (snd st)) as [r|];
      [destruct (compare_status status.CLOSE_OK r)|]; one_call;
      discriminate.
Qed.

Lemma socket_eqb_refl (s : socket) : socket_eqb s s = true.
Proof. induction s as [n|s IH]; cbn; [apply Nat.eqb_refl | exact IH]. Qed.

Lemma call_events_answered (s : socket) (evs : list event) :
  call_events s evs -> answered evs = true.
Proof. intros []; cbn; rewrite ?socket_eqb_refl; reflexivity. Qed.

Lemma answered_app (a b : list event) :
  answered a = true -> answered b = true -> answered (a ++ b) = true.
Proof.
  intros Ha Hb. induction a as [|e a IH]; [exact Hb|].
  destruct e; cbn [answered app] in *; auto.
  apply andb_true_iff in Ha as [Hnext Hrest].
  rewrite (IH Hrest), andb_true_r.
  destruct a as [|[] a']; cbn [app]; try discriminate Hnext. exact Hnext.
Qed.

Lemma perform_all_events (cs : list call) :
  forall st,
  exists evs,
    trace (snd (perform_all cs st)) = (trace (snd st) ++ evs)%list /\
    answered evs = true /\
    (forallb (fun c => negb (is_quit_terminate c)) cs = true ->
     forallb (fun e => negb (is_close_event e)) evs = true).
Proof.
  induction cs as [|c cs IH]; intros st.
  - exists []. split; [now rewrite app_nil_r | split; reflexivity].
  - destruct (perform_call_events c st) as (evs1 & Ht1 & Hc1 & Hq1).
    destruct (IH (perform c st)) as (evs2 & Ht2 & Ha2 & Hq2).
    exists (evs1 ++ evs2)%list. split; [|split].
    + cbn [perform_all fold_left]. fold (perform_all cs (perform c st)).
      rewrite Ht2, Ht1, app_assoc. reflexivity.
    + apply answered_app; [now apply call_events_answered with (s := sock (fst st)) | exact Ha2].
    + cbn [forallb]. intros H. apply andb_true_iff in H as [Hc Hcs].
      apply negb_true_iff in Hc.
      rewrite forallb_app, (Hq1 Hc), (Hq2 Hcs). reflexivity.
Qed.

(** X9.  No pipelining: in every sequence of calls, whatever the replies
    and whichever calls raise on a reply or a timeout, each command sent
    with [send] is directly followed by one [recv] on the same socket
    before anything else happens on a socket (the socket calls other than
    [recv] are taken to return normally, as everywhere in this model). *)
Theorem every_send_is_answered (cs : list call) (st : state) :
  answered (new_events (snd st) (snd (perform_all cs st))) = true.
Proof.
  destruct (perform_all_events cs st) as (evs & Ht & Ha & _).
  now rewrite (new_events_app _ _ _ Ht).
Qed.

(** X10.  Only [quit_terminate] closes the socket: a sequence of calls
    without [quit_terminate] records no [close], whatever the replies,
    failures and timeouts on the way. *)
Theorem only_quit_terminate_closes (cs : list call) (st : state) :
  forallb (fun c => negb (is_quit_terminate c)) cs = true ->
  forallb (fun e => negb (is_close_event e))
    (new_events (snd st) (snd (perform_all cs st))) = true.
Proof.
  intros Hcs. destruct (perform_all_events cs st) as (evs & Ht & _ & Hq).
  rewrite (new_events_app _ _ _ Ht). exact (Hq Hcs).
Qed.

Lemma only_quit_terminate_closes_witness :
  forallb (fun e => negb (is_close_event e))
    (new_events (snd (session ["220 ready"; "500 no"]))
       (snd (perform_all [call_connect; call_ehlo; call_mail "a@x" ""]
               (session ["220 ready"; "500 no"])))) = true.
Proof.
  apply (only_quit_terminate_closes
           [call_connect; call_ehlo; call_mail "a@x" ""]
           (session ["220 ready"; "500 no"])).
  reflexivity.
Defined.

(** X11.  A timeout is passed on as it is: when the [recv] of a call times
    out, the call raises [socket.timeout]; the object is unchanged, the
    socket is neither closed (by [quit_terminate]) nor wrapped (by
    [starttls]). *)
Theorem timeout_is_reraised (c : call) (st : state) :
  next_reply (snd st) = None ->
  reads_reply c = true ->
  raised c st = Some socket_timeout /\
  fst (perform c st) = fst st /\
  forallb (fun e => negb (is_close_event e || is_ssl_wrap_event e))
    (new_events (snd st) (snd (perform c st))) = true.
Proof.
  intros Hnone Hreads.
  destruct c; cbn [raised perform reads_reply] in *; try discriminate Hreads.
  - rewrite connect_run, Hnone. cbn [fst snd exn_of].
    rewrite new_events_connected. repeat split.
  - rewrite ehlo_run, Hnone. cbn [fst snd exn_of].
    rewrite new_events_exchanged. repeat split.
  - rewrite starttls_run, Hnone. cbn [fst snd exn_of].
    rewrite new_events_exchanged. repeat split.
  - rewrite authenticate_plain_run. cbv zeta. rewrite Hnone.
    cbn [fst snd exn_of]. rewrite new_events_exchanged. repeat split.
  - destruct (truthy_wraps _ Hreads) as [w Hw].
    rewrite mail_run, Hw. cbv zeta. rewrite Hnone. cbn [fst snd exn_of].
    rewrite new_events_exchanged. repeat split.
  - destruct (truthy_wraps _ Hreads) as [w Hw].
    rewrite send_recipients_run, Hw. cbv zeta. rewrite Hnone.
    cbn [fst snd exn_of]. rewrite new_events_exchanged. repeat split.
  - rewrite initiate_data_run, Hnone. cbn [fst snd exn_of].
    rewrite new_events_exchanged. repeat split.
  - rewrite end_data_run, Hnone. cbn [fst snd exn_of].
    rewrite new_events_exchanged. repeat split.
  - rewrite quit_terminate_run, Hnone. cbn [fst snd exn_of].
    rewrite new_events_exchanged. repeat split.
Qed.

Lemma timeout_is_reraised_witness :
  next_reply (snd (session [])) = None /\
  raised call_quit_terminate (session []) = Some socket_timeout /\
  is_closed (PlainSocket 3) (snd (perform call_quit_terminate (session [])))
  = false.
Proof.
  split; [reflexivity|]. split; [|reflexivity].
  apply (proj1 (timeout_is_reraised call_quit_terminate (session [])
                  eq_refl eq_refl)).
Defined.

(** ** Whole conversations *)

Lemma bind_run {A B : Type} (c : M A) (k : A -> M B) (st : state) :
  bind c k st =
  match c st with
  | (Return a, st') => k a st'
  | (Raise e, st') => (Raise e, st')
  end.
Proof. reflexivity. Qed.

Ltac next_call :=
  rewrite bind_run;
  first [ rewrite connect_run | rewrite ehlo_run | rewrite mail_run
        | rewrite send_recipients_run | rewrite initiate_data_run
        | rewrite end_data_run | rewrite quit_terminate_run
        | rewrite send_body_run | rewrite authenticate_plain_run ];
  cbv zeta;
  cbn [next_reply inbox snd fst exchanged connected closed body_sent emit
       trace next_fd tl sock server_ip Smtp.__init__].

Ltac settle_state :=
  cbv beta iota zeta delta
    [ret closed exchanged body_sent connected emit Smtp.__init__
     fst snd trace inbox next_fd tl sock server_ip port];
  rewrite <- ?app_assoc; reflexivity.

(** X12.  A whole transaction.  With a greeting 220 and replies 250, 250,
    250, 354, 250 and 221, whatever text follows the codes, the calls
    [connect], [ehlo], [mail], [send_recipients], [initiate_data],
    [send_body], [end_data] and [quit_terminate] on a fresh object all
    return their replies; the socket saw exactly the connection to port
    25, the seven command lines each followed by one [recv], the body
    sent as it is without a [recv], and one [close] at the end. *)
Theorem full_transaction
    (ip : string) (p : option Z) (n : nat) (tr : list event)
    (rest : list (option string))
    (sender recipient param ws wr body : string)
    (g e m t d a q : string) :
  slice_to 3 g = "220" -> slice_to 3 e = "250" -> slice_to 3 m = "250" ->
  slice_to 3 t = "250" -> slice_to 3 d = "354" -> slice_to 3 a = "250" ->
  slice_to 3 q = "221" ->
  wrap_in_brackets sender = Return ws ->
  wrap_in_brackets recipient = Return wr ->
  (r1 <- Smtp.connect ;;
   r2 <- Smtp.ehlo ;;
   r3 <- Smtp.mail sender param ;;
   r4 <- Smtp.send_recipients recipient ;;
   r5 <- Smtp.initiate_data ;;
   Smtp.send_body body ;;;
   r6 <- Smtp.end_data ;;
   r7 <- Smtp.quit_terminate ;;
   ret [r1; r2; r3; r4; r5; r6; r7])
    (Smtp.__init__ ip p
       {| next_fd := n;
          inbox := Some g :: Some e :: Some m :: Some t :: Some d :: Some a
                   :: Some q :: rest;
          trace := tr |})
  = (Return [g; e; m; t; d; a; q],
     ({| sock := PlainSocket n; server_ip := ip;
         port := match p with Some x => x | None => SMTP_PORT end |},
      {| next_fd := S n; inbox := rest;
         trace := tr ++ [ev_settimeout (PlainSocket n) 10;
                         ev_connect (PlainSocket n) ip 25;
                         ev_recv (PlainSocket n) KILO;
                         ev_send (PlainSocket n) ("EHLO" ++ CRLF);
                         ev_recv (PlainSocket n) KILO;
                         ev_send (PlainSocket n)
                           ("MAIL FROM:" ++ ws ++ " "
                            ++ (if truthy param then "BODY=" ++ param else "")
                            ++ CRLF);
                         ev_recv (PlainSocket n) KILO;
                         ev_send (PlainSocket n) ("RCPT TO:" ++ wr ++ CRLF);
                         ev_recv (PlainSocket n) KILO;
                         ev_send (PlainSocket n) ("DATA" ++ CRLF);
                         ev_recv (PlainSocket n) KILO;
                         ev_sendall (PlainSocket n) body;
                         ev_send (PlainSocket n) (CRLF ++ "." ++ CRLF);
                         ev_recv (PlainSocket n) KILO;
                         ev_send (PlainSocket n) ("QUIT" ++ CRLF);
                         ev_recv (PlainSocket n) KILO;
                         ev_close (PlainSocket n)] |})).
Proof.
  intros Hg He Hm Ht Hd Ha Hq Hs Hr.
  next_call. change (str status.READY) with "220". rewrite Hg.
  cbn [String.eqb Ascii.eqb Bool.eqb].
  next_call. rewrite (compare_status_true status.OK e He).
  next_call. rewrite Hs. cbv zeta. cbn [next_reply inbox snd exchanged].
  rewrite (compare_status_true status.OK m Hm).
  next_call. rewrite Hr. cbv zeta. cbn [next_reply inbox snd exchanged tl].
  rewrite (compare_status_true status.OK t Ht).
  next_call. rewrite (compare_status_true status.START_DATA d Hd).
  next_call.
  next_call. rewrite (compare_status_true status.OK a Ha).
  next_call. rewrite (compare_status_true status.CLOSE_OK q Hq).
  settle_state.
Qed.

Lemma full_transaction_witness :
  fst ((r1 <- Smtp.connect ;;
        r2 <- Smtp.ehlo ;;
        r3 <- Smtp.mail "a@x" "" ;;
        r4 <- Smtp.send_recipients "b@y" ;;
        r5 <- Smtp.initiate_data ;;
        Smtp.send_body "hi" ;;;
        r6 <- Smtp.end_data ;;
        r7 <- Smtp.quit_terminate ;;
        ret [r1; r2; r3; r4; r5; r6; r7])
         (session ["220 ready"; "250 ok"; "250 ok"; "250 ok"; "354 go";
                   "250 queued"; "221 bye"]))
  = Return ["220 ready"; "250 ok"; "250 ok"; "250 ok"; "354 go";
            "250 queued"; "221 bye"].
Proof.
  exact (f_equal fst
           (full_transaction "10.0.0.1" None 3 [] []
              "a@x" "b@y" "" "<a@x>" "<b@y>" "hi"
              "220 ready" "250 ok" "250 ok" "250 ok" "354 go"
              "250 queued" "221 bye"
              eq_refl eq_refl eq_refl eq_refl eq_refl eq_refl eq_refl
              eq_refl eq_refl)).
Defined.

(** X13.  Credentials can be tried again on the same session: after an
    [authenticate_plain] answered with a code other than 235, a second
    one answered with 235 returns [(True, reply)]; both command lines
    went out on the same socket and the object is unchanged. *)
Theorem authenticate_plain_retry
    (user1 pass1 user2 pass2 : string)
    (self : Smtp) (n : nat) (tr : list event) (rest : list (option string))
    (r1 r2 : string) :
  slice_to 3 r1 <> "235" ->
  slice_to 3 r2 = "235" ->
  (first <- Smtp.authenticate_plain user1 pass1 ;;
   second <- Smtp.authenticate_plain user2 pass2 ;;
   ret (first, second))
    (self, {| next_fd := n; inbox := Some r1 :: Some r2 :: rest; trace := tr |})
  = (Return ((false, r1), (true, r2)),
     (self,
      {| next_fd := n; inbox := rest;
         trace := tr ++ [ev_send (sock self)
                           (build_auth_line "PLAIN"
                              (b64encode (NULL ++ user1 ++ NULL ++ pass1)));
                         ev_recv (sock self) KILO;
                         ev_send (sock self)
                           (build_auth_line "PLAIN"
                              (b64encode (NULL ++ user2 ++ NULL ++ pass2)));
                         ev_recv (sock self) KILO] |})).
Proof.
  intros H1 H2.
  next_call. rewrite (compare_status_false status.ACCEPTED r1 H1).
  next_call. rewrite (compare_status_true status.ACCEPTED r2 H2).
  settle_state.
Qed.

Lemma authenticate_plain_retry_witness :
  fst ((first <- Smtp.authenticate_plain "bob" "wrong" ;;
        second <- Smtp.authenticate_plain "bob" "secret" ;;
        ret (first, second))
         (session ["535 bad"; "235 ok"]))
  = Return ((false, "535 bad"), (true, "235 ok")).
Proof.
  exact (f_equal fst
           (authenticate_plain_retry "bob" "wrong" "bob" "secret"
              (fst (session [])) 4 [ev_settimeout (PlainSocket 3) 10] []
              "535 bad" "235 ok" ltac:(discriminate) eq_refl)).
Defined.

(** ** The credential line *)

Lemma all_chars_app (test : ascii -> bool) (a b : string) :
  all_chars test (a ++ b) = all_chars test a && all_chars test b.
Proof.
  induction a as [|c a IH]; cbn; [reflexivity|].
  now rewrite IH, andb_assoc.
Qed.

Lemma b64_char_symbol (x : sextet) : b64_symbol (b64_char x) = true.
Proof. unfold b64_symbol. now rewrite b64_index_char. Qed.

Lemma b64encode_symbols_bounded (n : nat) :
  forall s, String.length s <= n -> all_chars b64_symbol (b64encode s) = true.
Proof.
  induction n as [|n IH]; intros s Hlen.
  - destruct s; [reflexivity | cbn in Hlen; lia].
  - destruct s as [|x [|y [|z rest]]]; [reflexivity| | |].
    + destruct x. cbn [b64encode encode1 all_chars].
      rewrite !b64_char_symbol. reflexivity.
    + destruct x, y. cbn [b64encode encode2 all_chars].
      rewrite !b64_char_symbol. reflexivity.
    + cbn [b64encode]. rewrite all_chars_app, IH by (cbn in Hlen; lia).
      destruct x, y, z. cbn [encode3 all_chars].
      rewrite !b64_char_symbol. reflexivity.
Qed.

Lemma all_chars_excludes (test : ascii -> bool) (c : ascii) (s : string) :
  all_chars test s = true -> test c = false -> contains c s = false.
Proof.
  intros Hs Hc. induction s as [|d s IH]; [reflexivity|].
  cbn [all_chars contains] in *. apply andb_true_iff in Hs as [Hd Hs].
  rewrite (IH Hs), orb_false_r.
  destruct (Ascii.eqb c d) eqn:E; [|reflexivity].
  apply ascii_eqb_true in E. congruence.
Qed.

(** X14.  Whatever the user and the pass phrase contain, line ends
    included, the token that [authenticate_plain] puts between
    ["AUTH PLAIN "] and the final CRLF is made of characters of the base64
    alphabet and [=] only: no other character, in particular no carriage
    return, line feed, space or NUL, occurs in it. *)
Theorem authenticate_plain_line_is_one_line
    (c : ascii) (user pass_phrase : string) (st : state) :
  b64_symbol c = false ->
  exists token,
    new_events (snd st) (snd (snd (Smtp.authenticate_plain user pass_phrase st)))
    = [ev_send (sock (fst st)) ("AUTH PLAIN " ++ token ++ CRLF);
       ev_recv (sock (fst st)) KILO] /\
    all_chars b64_symbol token = true /\
    contains c token = false.
Proof.
  intros Hc. exists (b64encode (NULL ++ user ++ NULL ++ pass_phrase)).
  assert (Hsym : all_chars b64_symbol
                   (b64encode (NULL ++ user ++ NULL ++ pass_phrase)) = true)
    by (eapply b64encode_symbols_bounded; reflexivity).
  split; [|split].
  - rewrite authenticate_plain_run. cbv zeta.
    destruct (next_reply (snd st)); apply new_events_exchanged.
  - exact Hsym.
  - exact (all_chars_excludes _ _ _ Hsym Hc).
Qed.

Lemma authenticate_plain_line_is_one_line_witness :
  b64_symbol "010" = false /\
  exists token,
    new_events (snd (session ["235 ok"]))
      (snd (snd (Smtp.authenticate_plain ("bob" ++ CRLF ++ "QUIT") "secret"
                   (session ["235 ok"]))))
    = [ev_send (PlainSocket 3) ("AUTH PLAIN " ++ token ++ CRLF);
       ev_recv (PlainSocket 3) KILO] /\
    all_chars b64_symbol token = true /\
    contains "010" token = false.
Proof.
  split; [reflexivity|].
  apply (authenticate_plain_line_is_one_line
           "010" ("bob" ++ CRLF ++ "QUIT") "secret" (session ["235 ok"])
           eq_refl).
Defined.

(** ** More on [starttls], [quit_terminate] and [compare_status] *)

(** X15.  [starttls] has no guard against a session that is already
    wrapped: as many calls answered with 220 wrap the socket of the
    session as many times. *)
Theorem starttls_wraps_each_time (replies : list string) :
  forall (self : Smtp) (n : nat) (rest : list (option string))
         (tr : list event),
    Forall (fun r => slice_to 3 r = "220") replies ->
    sock (fst (perform_all (repeat call_starttls (List.length replies))
                 (self, {| next_fd := n;
                           inbox := map Some replies ++ rest;
                           trace := tr |})))
    = wrapped_times (List.length replies) (sock self).
Proof.
  induction replies as [|r replies IH]; intros self n rest tr Hall;
    [reflexivity|].
  inversion Hall as [|r' replies' Hr Hrest]; subst.
  cbn [List.length repeat perform_all fold_left perform map app].
  fold (perform_all (repeat call_starttls (List.length replies))).
  rewrite starttls_run. cbn [next_reply inbox snd].
  rewrite (compare_status_true status.READY r Hr).
  unfold upgraded, exchanged, emit.
  cbn [fst snd trace inbox next_fd tl wrapped_times].
  exact (IH _ _ _ _ Hrest).
Qed.

Lemma starttls_wraps_each_time_witness :
  sock (fst (perform_all [call_starttls; call_starttls]
               (session ["220 go"; "220 again"])))
  = SSLSocket (SSLSocket (PlainSocket 3)).
Proof.
  apply (starttls_wraps_each_time ["220 go"; "220 again"]
           (fst (session [])) 4 [] [ev_settimeout (PlainSocket 3) 10]).
  repeat constructor.
Defined.

(** X16.  When the reply code is not the awaited one, [starttls] raises an
    error that names the code of the reply first and 220 second, while
    [quit_terminate] raises one that names 221 first and the code of the
    reply second. *)
Theorem starttls_and_quit_error_messages (st : state) (r : string) :
  next_reply (snd st) = Some r ->
  (slice_to 3 r <> "220" ->
   fst (Smtp.starttls st)
   = Raise (RuntimeError ("Unexpected status code: " ++ slice_to 3 r
                          ++ " instead of 220"))) /\
  (slice_to 3 r <> "221" ->
   fst (Smtp.quit_terminate st)
   = Raise (RuntimeError ("Unexpected status code: 221 instead of "
                          ++ slice_to 3 r))).
Proof.
  intros Hr. rewrite starttls_run, quit_terminate_run, Hr. split; intros H.
  - by_status status.READY r H.
  - by_status status.CLOSE_OK r H.
Qed.

Lemma starttls_and_quit_error_messages_witness :
  next_reply (snd (session ["454 TLS not available"]))
  = Some "454 TLS not available" /\
  fst (Smtp.starttls (session ["454 TLS not available"]))
  = Raise (RuntimeError "Unexpected status code: 454 instead of 220") /\
  fst (Smtp.quit_terminate (session ["454 TLS not available"]))
  = Raise (RuntimeError "Unexpected status code: 221 instead of 454").
Proof.
  split; [reflexivity|].
  split.
  - apply (proj1 (starttls_and_quit_error_messages
                    (session ["454 TLS not available"])
                    "454 TLS not available" eq_refl)).
    discriminate.
  - apply (proj2 (starttls_and_quit_error_messages
                    (session ["454 TLS not available"])
                    "454 TLS not available" eq_refl)).
    discriminate.
Defined.

Lemma slice_to_split (n : nat) (r : string) :
  exists tail,
    r = slice_to n r ++ tail /\
    (String.length (slice_to n r) = n \/
     (String.length (slice_to n r) < n /\ tail = "")).
Proof.
  revert r; induction n as [|n IH]; intros r.
  - exists r. split; [destruct r; reflexivity | left; destruct r; reflexivity].
  - destruct r as [|c r].
    + exists "". split; [reflexivity | right; cbn; split; [lia | reflexivity]].
    + destruct (IH r) as (tail & Hr & Hlen). exists tail. cbn [slice_to append].
      split; [now rewrite <- Hr|]. cbn [String.length].
      destruct Hlen as [H|[H Ht]]; [left; lia | right; split; [lia | exact Ht]].
Qed.

(** X17.  A reply that [compare_status] accepts starts with the string
    form of the code; when that string has fewer than three characters
    the reply is the code itself, with nothing after it, and a code of
    more than three characters is never accepted. *)
Theorem compare_status_match_shape (code : pyval) (response : string) :
  compare_status code response = true ->
  exists tail,
    response = str code ++ tail /\
    (String.length (str code) = 3 \/
     (String.length (str code) < 3 /\ tail = "")).
Proof.
  intros H. apply compare_status_spec in H. rewrite <- H.
  apply slice_to_split.
Qed.

Lemma compare_status_match_shape_witness :
  compare_status (PyInt 25) "25" = true /\
  exists tail,
    "25" = str (PyInt 25) ++ tail /\
    (String.length (str (PyInt 25)) = 3 \/
     (String.length (str (PyInt 25)) < 3 /\ tail = "")).
Proof.
  split; [reflexivity|].
  apply (compare_status_match_shape (PyInt 25) "25" eq_refl).
Defined.

Example str_ok : str status.OK = "250".
Proof. reflexivity. Qed.

Example wrap_plain : wrap_in_brackets "a@x" = Return "<a@x>".
Proof. reflexivity. Qed.

Example wrap_half : wrap_in_brackets "<a@x" = Return "<a@x>".
Proof. reflexivity. Qed.

Example wrap_gt : wrap_in_brackets ">" = Return "<>".
Proof. reflexivity. Qed.

Example answered_rejects_pipelining :
  answered [ev_send (PlainSocket 3) "EHLO"; ev_send (PlainSocket 3) "QUIT";
            ev_recv (PlainSocket 3) KILO] = false.
Proof. reflexivity. Qed.

Example compare_status_short_code :
  compare_status (PyInt 25) "25 ok" = false.
Proof. reflexivity. Qed.
